(** * Tekisho chat backend: a model of [backend/server.py]

    The Flask application of [backend/server.py] sits between a LiveKit room
    registry, an OpenAI completion service and a Supabase chat store.  This
    development embeds its view functions as Rocq functions and proves what
    they do for every request and every behaviour of those collaborators.

    Python values that reach the code through [request.get_json()],
    [json.loads] and the storage results are JSON values; the code is
    dynamically typed, so the operations it applies to them ([not x],
    [len(x)], [x.get(k, d)], [k in x], [x[k]], iteration) are modelled on
    every JSON value, with the exception Python raises where the operation is
    not defined. *)

From Stdlib Require Import String Ascii List ZArith Bool Arith Lia Floats.
Import ListNotations.
Local Open Scope string_scope.

Set Implicit Arguments.
Set Warnings "-register-all".

(** ** Python values and exceptions *)

Module Py.

(** What [json.loads] and Flask's [get_json] produce: [None], [bool], [int],
    [float], [str], [list] and [dict] (keys in insertion order, each once). *)
Inductive value : Type :=
| VNone
| VBool (b : bool)
| VInt (n : Z)
| VFloat (f : float)
| VStr (s : string)
| VList (items : list value)
| VDict (entries : list (string * value)).

Definition dict := list (string * value).

(** The exception classes the code distinguishes.  Everything here derives
    from [Exception]; [except RuntimeError] matches the first only. *)
Inductive exn_class : Type :=
| RuntimeError
| TypeError
| AttributeError
| ValueError
| OtherException.

Record exn : Type := Exn { exn_class_of : exn_class; exn_message : string }.

(** A Python expression either returns a value or raises. *)
Inductive outcome (A : Type) : Type :=
| Returns (a : A)
| Raises (e : exn).
Arguments Raises {A} e.

(** Truth value testing, as [if not x] applies it. *)
Definition truthy (v : value) : bool :=
  match v with
  | VNone => false
  | VBool b => b
  | VInt n => negb (n =? 0)%Z
  | VFloat f => negb (PrimFloat.eqb f 0%float)
  | VStr s => negb (s =? "")
  | VList items => match items with [] => false | _ :: _ => true end
  | VDict entries => match entries with [] => false | _ :: _ => true end
  end.

(** [d.get(key)] on a [dict]: the value bound to [key], if any. *)
Fixpoint lookup (key : string) (d : dict) : option value :=
  match d with
  | [] => None
  | (k, v) :: rest => if k =? key then Some v else lookup key rest
  end.

(** [d.get(key, default)]. *)
Definition dict_get (d : dict) (key : string) (default : value) : value :=
  match lookup key d with
  | Some v => v
  | None => default
  end.

(** [key in d] on a [dict]. *)
Definition has_key (key : string) (d : dict) : bool :=
  match lookup key d with
  | Some _ => true
  | None => false
  end.

(** [needle in haystack] on two [str]: substring search. *)
Definition is_substring (needle haystack : string) : bool :=
  match String.index 0 needle haystack with
  | Some _ => true
  | None => false
  end.

(** [x == s] for a [str] [s]: only an equal [str] compares equal. *)
Definition equals_str (s : string) (x : value) : bool :=
  match x with
  | VStr t => t =? s
  | _ => false
  end.

(** A [str] is held as the bytes of its UTF-8 encoding, which is how the
    literals of this file are read.  A byte 10xxxxxx continues the character
    begun before it; every other byte begins one. *)
Definition is_continuation (c : ascii) : bool :=
  let n := nat_of_ascii c in
  ((128 <=? n) && (n <? 192))%nat.

(** The characters that begin in [s]. *)
Fixpoint characters_begun (s : string) : nat :=
  match s with
  | EmptyString => 0
  | String c rest =>
      if is_continuation c then characters_begun rest else S (characters_begun rest)
  end.

(** [len(s)] on a [str]: its number of characters (code points), the first
    byte and every later byte that begins one. *)
Definition str_len (s : string) : nat :=
  match s with
  | EmptyString => 0
  | String _ rest => S (characters_begun rest)
  end.

(** The interpreter's name of a value's type, as it appears in messages. *)
Definition type_name (v : value) : string :=
  match v with
  | VNone => "NoneType"
  | VBool _ => "bool"
  | VInt _ => "int"
  | VFloat _ => "float"
  | VStr _ => "str"
  | VList _ => "list"
  | VDict _ => "dict"
  end.

End Py.
Export Py.

(** ** Operations of the interpreter on JSON values

    Each returns what CPython returns, or raises what CPython raises.  The
    message texts follow CPython 3.11; no result below depends on them. *)

Module Interp.

Definition quoted (s : string) : string := "'" ++ s ++ "'".

(** [obj.get(key, default)]: only a [dict] has the method. *)
Definition py_get (obj : value) (key : string) (default : value) : outcome value :=
  match obj with
  | VDict d => Returns (dict_get d key default)
  | _ => Raises (Exn AttributeError
                     (quoted (type_name obj) ++ " object has no attribute 'get'"))
  end.

(** [len(obj)]. *)
Definition py_len (obj : value) : outcome nat :=
  match obj with
  | VStr s => Returns (str_len s)
  | VList items => Returns (List.length items)
  | VDict d => Returns (List.length d)
  | _ => Raises (Exn TypeError
                     ("object of type " ++ quoted (type_name obj) ++ " has no len()"))
  end.

(** [key in obj] for a [str] key. *)
Definition py_contains (key : string) (obj : value) : outcome bool :=
  match obj with
  | VDict d => Returns (has_key key d)
  | VList items => Returns (existsb (equals_str key) items)
  | VStr s => Returns (is_substring key s)
  | _ => Raises (Exn TypeError
                     ("argument of type " ++ quoted (type_name obj) ++ " is not iterable"))
  end.

(** [obj[key]] for a [str] key. *)
Definition py_index (obj : value) (key : string) : outcome value :=
  match obj with
  | VDict d =>
      match lookup key d with
      | Some v => Returns v
      | None => Raises (Exn OtherException (quoted key))
      end
  | VList _ => Raises (Exn TypeError "list indices must be integers or slices, not str")
  | VStr _ => Raises (Exn TypeError "string indices must be integers, not 'str'")
  | _ => Raises (Exn TypeError (quoted (type_name obj) ++ " object is not subscriptable"))
  end.

(** The characters of a text after the bytes [current] of the one being
    read, each as a [str] of its own. *)
Fixpoint characters_after (current : string) (s : string) : list value :=
  match s with
  | EmptyString => [VStr current]
  | String c rest =>
      if is_continuation c then characters_after (current ++ String c EmptyString) rest
      else VStr current :: characters_after (String c EmptyString) rest
  end.

(** What iterating over a [str] visits: its characters, one by one. *)
Definition characters (s : string) : list value :=
  match s with
  | EmptyString => []
  | String c rest => characters_after (String c EmptyString) rest
  end.

(** [for x in obj]: the items the loop visits. *)
Definition py_iter (obj : value) : outcome (list value) :=
  match obj with
  | VList items => Returns items
  | VStr s => Returns (characters s)
  | VDict d => Returns (map (fun kv => VStr (fst kv)) d)
  | _ => Raises (Exn TypeError (quoted (type_name obj) ++ " object is not iterable"))
  end.

End Interp.
Export Interp.

(** ** The runtime and the collaborators *)

(** Library functions the code calls and this development does not define:
    they are taken as they are, whatever they compute. *)
Record Builtins : Type := {
  (** [json.loads(text)] *)
  json_loads : string -> outcome value;
  (** [int(text)] on a [str] *)
  py_int : string -> outcome Z;
  (** [str(v)] for a value that is not a [str] *)
  py_str : value -> string;
  (** [text.strip()] *)
  str_strip : string -> string
}.

(** What [asyncio.get_event_loop()] finds in the thread that serves the
    request, when the request arrives. *)
Inductive thread_ctx : Type :=
| NoLoop        (** no loop: [get_event_loop] raises [RuntimeError] *)
| ClosedLoop    (** a loop that has been closed *)
| IdleLoop      (** a loop that is open and not running *)
| RunningLoop   (** the loop that is running in this very thread *)
| BusyLoop.     (** an open loop that another thread is running *)

(** The services behind the endpoints, as one request sees them. *)
Record World : Type := {
  thread : thread_ctx;
  (** [get_supabase_client()] *)
  get_supabase_client : outcome unit;
  (** [supabase_client.save_chat_history(name, company_name, chat_history)],
      driven for the [n]-th time (counting from 0) during this request *)
  storage_save : nat -> value -> value -> value -> outcome value;
  (** [supabase_client.get_chat_history(name, company_name, limit)] *)
  storage_query : option string -> option string -> Z -> outcome value;
  (** [client.chat.completions.create(...)] for a prompt, down to
      [response.choices[0].message.content] *)
  chat_completion : string -> outcome (option string);
  (** [llm_extractor.extract_user_info_from_chat(chat_history)] *)
  extract_user_info_from_chat : value -> outcome value
}.

(** ** Effects: a trace of what the request did, and exceptions *)

(** An event loop: the one found in the thread, or the [n]-th that this
    request made with [asyncio.new_event_loop()] or inside [asyncio.run]. *)
Inductive loop : Type :=
| ThreadLoop
| NewLoop (n : nat).

Inductive event : Type :=
| StorageWrite (name company chat_history : value)
| StorageQuery (name company : option string) (limit : Z)
| CompletionRequest (prompt : string)
| LoopCreated (l : loop)
| LoopInstalled (l : loop)
| LoopClosed (l : loop)
| PoolCreated
| PoolShutdown.

(** Most recent event first. *)
Definition trace := list event.

Definition M (A : Type) : Type := trace -> outcome A * trace.

Definition ret {A} (a : A) : M A := fun t => (Returns a, t).

Definition raise {A} (e : exn) : M A := fun t => (Raises e, t).

Definition bind {A B} (m : M A) (k : A -> M B) : M B :=
  fun t =>
    match m t with
    | (Returns a, t') => k a t'
    | (Raises e, t') => (Raises e, t')
    end.

(** [try: m  except Exception as e: handler e] *)
Definition try_except {A} (m : M A) (handler : exn -> M A) : M A :=
  fun t =>
    match m t with
    | (Returns a, t') => (Returns a, t')
    | (Raises e, t') => handler e t'
    end.

(** [try: m  finally: cleanup], which is also what leaving a [with] block does. *)
Definition try_finally {A} (m : M A) (cleanup : M unit) : M A :=
  fun t =>
    match m t with
    | (r, t') =>
        match cleanup t' with
        | (Returns _, t'') => (r, t'')
        | (Raises e, t'') => (Raises e, t'')
        end
    end.

Definition lift {A} (o : outcome A) : M A := fun t => (o, t).

Definition emit (e : event) : M unit := fun t => (Returns tt, e :: t).

Declare Scope py_scope.
Delimit Scope py_scope with py.
Notation "x <- m ;; k" := (bind m (fun x => k))
  (at level 61, m at next level, right associativity) : py_scope.
Notation "m ;; k" := (bind m (fun _ => k))
  (at level 61, right associativity) : py_scope.
Local Open Scope py_scope.

(** ** Room names: [generate_room_name] and [get_rooms] *)

Module RoomNames.

(** An entry of [rooms.rooms]; the code reads its [name]. *)
Record room : Type := { room_name : string }.

(** The registry as one call of [get_rooms] sees it: [LiveKitAPI()],
    [api.room.list_rooms(ListRoomsRequest())] and [api.aclose()]. *)
Record Registry : Type := {
  connect : outcome unit;
  list_rooms : outcome (list room);
  aclose : outcome unit
}.

Definition get_rooms (R : Registry) : outcome (list string) :=
  match connect R with
  | Raises e => Raises e
  | Returns _ =>
      match list_rooms R with
      | Raises e => Raises e
      | Returns rooms =>
          match aclose R with
          | Raises e => Raises e
          | Returns _ => Returns (map room_name rooms)
          end
      end
  end.

(** ["room-" + str(uuid.uuid4())[:8]], from the text of the identifier drawn. *)
Definition candidate (uuid : string) : string := "room-" ++ substring 0 8 uuid.

(** [name in rooms] *)
Definition name_in (name : string) (rooms : list string) : bool :=
  existsb (String.eqb name) rooms.

(** The [while name in rooms] loop.  [uuids] are the identifiers that
    [uuid.uuid4()] hands out from here on, in order; the loop draws one per
    round.  [None]: the loop is still running when they are used up. *)
Fixpoint while_name_in_rooms (rooms : list string) (name : string)
    (uuids : list string) {struct uuids} : option string :=
  if name_in name rooms then
    match uuids with
    | [] => None
    | uuid :: later => while_name_in_rooms rooms (candidate uuid) later
    end
  else Some name.

Definition generate_room_name (uuids : list string) (R : Registry)
  : option (outcome string) :=
  match uuids with
  | [] => None
  | uuid :: later =>
      let name := candidate uuid in
      match get_rooms R with
      | Raises e => Some (Raises e)
      | Returns rooms =>
          match while_name_in_rooms rooms name later with
          | Some fresh => Some (Returns fresh)
          | None => None
          end
      end
  end.

End RoomNames.

(** ** The HTTP endpoints *)

Record request : Type := {
  (** [request.args]: the query parameters in order; [get] reads the first *)
  args : list (string * string);
  (** [request.get_json()] *)
  get_json : outcome value
}.

(** [jsonify(body), status] *)
Record response : Type := { status : Z; body : value }.

Definition jsonify (entries : dict) (code : Z) : response :=
  {| status := code; body := VDict entries |}.

(** [request.args.get(key)] *)
Fixpoint args_get (key : string) (a : list (string * string)) : option string :=
  match a with
  | [] => None
  | (k, v) :: rest => if k =? key then Some v else args_get key rest
  end.

Definition newline : string := String (ascii_of_nat 10) EmptyString.
Definition dquote : string := String (ascii_of_nat 34) EmptyString.

Section Server.

Variable B : Builtins.
Variable W : World.

(** How an f-string renders a value: [str(v)]. *)
Definition format (v : value) : string :=
  match v with
  | VStr s => s
  | _ => py_str B v
  end.

(** *** The storage coroutines *)

Definition is_write (e : event) : bool :=
  match e with StorageWrite _ _ _ => true | _ => false end.

(** How many times the storage write has been driven so far. *)
Definition writes (t : trace) : nat := List.length (filter is_write t).

(** The body of [supabase_client.save_chat_history(...)].  Calling the
    function only makes the coroutine; this is what runs when it is awaited
    or handed to an event loop. *)
Definition save_chat_history (name company chat_history : value) : M value :=
  fun t =>
    (storage_save W (writes t) name company chat_history,
     StorageWrite name company chat_history :: t).

Definition get_chat_history (name company : option string) (limit : Z) : M value :=
  fun t => (storage_query W name company limit, StorageQuery name company limit :: t).

Definition complete (prompt : string) : M (option string) :=
  fun t => (chat_completion W prompt, CompletionRequest prompt :: t).

(** *** [POST /save_chat] *)

Definition save_chat (req : request) : M response :=
  try_except
    (data <- lift (get_json req) ;;
     if negb (truthy data) then
       ret (jsonify [("error", VStr "No JSON data provided")] 400)
     else
       name <- lift (py_get data "name" (VStr "Unknown")) ;;
       company_name <- lift (py_get data "company_name" (VStr "Unknown Company")) ;;
       chat_history <- lift (py_get data "chat_history" (VList [])) ;;
       if negb (truthy chat_history) then
         ret (jsonify [("error", VStr "No chat history provided")] 400)
       else
         message_count <- lift (py_len chat_history) ;;
         lift (get_supabase_client W) ;;
         result <- save_chat_history name company_name chat_history ;;
         failed <- lift (py_contains "error" result) ;;
         if (failed : bool) then
           reason <- lift (py_index result "error") ;;
           ret (jsonify [("error", reason)] 500)
         else
           record_id <- lift (py_get result "id" VNone) ;;
           ret (jsonify
                  [("success", VBool true);
                   ("message", VStr ("Chat history saved successfully for " ++ format name));
                   ("record_id", record_id);
                   ("message_count", VInt (Z.of_nat message_count))]
                  200))
    (fun e =>
       ret (jsonify [("error", VStr ("Internal server error: " ++ exn_message e))] 500)).

(** *** [GET /get_chats] *)

Definition get_chats (req : request) : M response :=
  try_except
    (let name := args_get "name" (args req) in
     let company_name := args_get "company_name" (args req) in
     limit <- lift (match args_get "limit" (args req) with
                    | Some text => py_int B text
                    | None => Returns 50%Z
                    end) ;;
     lift (get_supabase_client W) ;;
     chats <- get_chat_history name company_name limit ;;
     count <- lift (py_len chats) ;;
     ret (jsonify
            [("success", VBool true);
             ("chats", chats);
             ("count", VInt (Z.of_nat count))]
            200))
    (fun e =>
       ret (jsonify [("error", VStr ("Internal server error: " ++ exn_message e))] 500)).

(** *** [POST /extract_client_info] *)

(** The [for msg in chat_history] loop that builds [conversation_text]. *)
Fixpoint render_conversation (messages : list value) (conversation_text : string)
  : outcome string :=
  match messages with
  | [] => Returns conversation_text
  | msg :: later =>
      match py_get msg "speaker" (VStr "Unknown") with
      | Raises e => Raises e
      | Returns speaker =>
          match py_get msg "message" (VStr "") with
          | Raises e => Raises e
          | Returns message =>
              render_conversation later
                (conversation_text ++ format speaker ++ ": " ++ format message ++ newline)
          end
      end
  end.

Definition extraction_prompt (conversation_text : string) : string :=
  newline ++
  "        Analyze the following conversation and extract the client's name and company name." ++ newline ++
  "        Return ONLY a JSON object with 'name' and 'company' fields." ++ newline ++
  "        If information is not found, use 'Unknown' for that field." ++ newline ++
  "        " ++ newline ++
  "        Conversation:" ++ newline ++
  "        " ++ conversation_text ++ newline ++
  "        " ++ newline ++
  "        Example response format:" ++ newline ++
  "        {" ++ dquote ++ "name" ++ dquote ++ ": " ++ dquote ++ "John Doe" ++ dquote ++ ", "
             ++ dquote ++ "company" ++ dquote ++ ": " ++ dquote ++ "Acme Corp" ++ dquote ++ "}" ++ newline ++
  "        ".

(** The inner [try: ... except:] that reads the completion's text. *)
Definition parse_client_info (result_text : string) : M (value * value) :=
  try_except
    (extracted_info <- lift (json_loads B result_text) ;;
     name <- lift (py_get extracted_info "name" (VStr "Unknown")) ;;
     company <- lift (py_get extracted_info "company" (VStr "Unknown")) ;;
     ret (name, company))
    (fun _ => ret (VStr "Unknown", VStr "Unknown")).

(** Lines 164 to 206: from the chat history to [name] and [company]. *)
Definition extract_inline (chat_history : value) : M (value * value) :=
  messages <- lift (py_iter chat_history) ;;
  conversation_text <- lift (render_conversation messages "") ;;
  content <- complete (extraction_prompt conversation_text) ;;
  result_text <- match content with
                 | Some text => ret (str_strip B text)
                 | None => raise (Exn AttributeError
                                      "'NoneType' object has no attribute 'strip'")
                 end ;;
  parse_client_info result_text.

Definition extract_client_info (req : request) : M response :=
  try_except
    (data <- lift (get_json req) ;;
     absent <- (if negb (truthy data) then ret true
                else (history <- lift (py_get data "chat_history" VNone) ;;
                      ret (negb (truthy history)))) ;;
     if (absent : bool) then
       ret (jsonify [("error", VStr "No chat history provided")] 400)
     else
       chat_history <- lift (py_get data "chat_history" (VList [])) ;;
       extracted <- extract_inline chat_history ;;
       ret (jsonify
              [("success", VBool true);
               ("name", fst extracted);
               ("company", snd extracted)]
              200))
    (fun e =>
       ret (jsonify [("error", VStr ("Failed to extract client info: " ++ exn_message e))] 500)).

(** *** [asyncio] and [concurrent.futures], as far as the code uses them *)

Definition loop_eqb (a b : loop) : bool :=
  match a, b with
  | ThreadLoop, ThreadLoop => true
  | NewLoop n, NewLoop m => Nat.eqb n m
  | _, _ => false
  end.

Definition is_created (e : event) : bool :=
  match e with LoopCreated _ => true | _ => false end.

Definition closes (l : loop) (e : event) : bool :=
  match e with LoopClosed l' => loop_eqb l l' | _ => false end.

Definition loops_created (t : trace) : nat := List.length (filter is_created t).

(** The loop most recently installed by [asyncio.set_event_loop]. *)
Fixpoint installed (t : trace) : option loop :=
  match t with
  | [] => None
  | LoopInstalled l :: _ => Some l
  | _ :: earlier => installed earlier
  end.

Definition new_event_loop : M loop :=
  fun t => let l := NewLoop (loops_created t) in (Returns l, LoopCreated l :: t).

Definition set_event_loop (l : loop) : M unit := emit (LoopInstalled l).

Definition get_event_loop : M loop :=
  fun t =>
    match thread W, installed t with
    | RunningLoop, _ => (Returns ThreadLoop, t)
    | _, Some l => (Returns l, t)
    | NoLoop, None =>
        (Raises (Exn RuntimeError "There is no current event loop"), t)
    | _, None => (Returns ThreadLoop, t)
    end.

(** [loop.is_closed()] *)
Definition is_closed (l : loop) : M bool :=
  fun t =>
    (Returns match l with
             | ThreadLoop => match thread W with ClosedLoop => true | _ => false end
             | NewLoop _ => existsb (closes l) t
             end, t).

(** [loop.is_running()]: a loop this request made is only ever run by the
    blocking calls below, so it is never running when asked. *)
Definition is_running (l : loop) : bool :=
  match l with
  | ThreadLoop => match thread W with RunningLoop | BusyLoop => true | _ => false end
  | NewLoop _ => false
  end.

(** Whether a loop is running in the thread that serves the request. *)
Definition loop_running_here : bool :=
  match thread W with RunningLoop => true | _ => false end.

(** [loop.run_until_complete(coro)]: the two checks it makes first, then the
    coroutine is driven to its end. *)
Definition run_until_complete {A} (l : loop) (coro : M A) : M A :=
  closed <- is_closed l ;;
  if (closed : bool) then raise (Exn RuntimeError "Event loop is closed")
  else if is_running l then raise (Exn RuntimeError "This event loop is already running")
  else if loop_running_here then
    raise (Exn RuntimeError "Cannot run the event loop while another loop is running")
  else coro.

(** [loop.close()] *)
Definition close (l : loop) : M unit :=
  if is_running l then raise (Exn RuntimeError "Cannot close a running event loop")
  else (closed <- is_closed l ;; if (closed : bool) then ret tt else emit (LoopClosed l)).

(** [asyncio.run(coro)] in a worker thread, where no loop is running: a
    private loop is made, drives the coroutine, and is closed whatever
    happens. *)
Definition asyncio_run {A} (coro : M A) : M A :=
  l <- new_event_loop ;;
  try_finally coro (close l).

(** [with concurrent.futures.ThreadPoolExecutor() as pool:
       pool.submit(task).result()] *)
Definition with_thread_pool {A} (task : M A) : M A :=
  emit PoolCreated ;;
  try_finally task (emit PoolShutdown).

(** [try: m  except RuntimeError: handler] *)
Definition try_except_RuntimeError {A} (m : M A) (handler : M A) : M A :=
  fun t =>
    match m t with
    | (Raises (Exn RuntimeError msg), t') => handler t'
    | r => r
    end.

(** *** [POST /save-conversation] *)

(** Lines 259 to 304: the storage coroutine run from synchronous code. *)
Definition run_save_blocking (name company chat_history : value) : M value :=
  try_except
    (loop <- try_except_RuntimeError
               (l <- get_event_loop ;;
                closed <- is_closed l ;;
                if (closed : bool) then raise (Exn RuntimeError "Loop is closed")
                else ret l)
               (l <- new_event_loop ;;
                set_event_loop l ;;
                ret l) ;;
     if is_running loop then
       with_thread_pool (asyncio_run (save_chat_history name company chat_history))
     else
       run_until_complete loop (save_chat_history name company chat_history))
    (fun loop_error =>
       new_loop <- new_event_loop ;;
       result <- run_until_complete new_loop
                   (save_chat_history name company chat_history) ;;
       close new_loop ;;
       ret result).

(** Lines 244 to 251: from the chat history to [name] and [company], by the
    separate extractor module. *)
Definition extract_with_module (chat_history : value) : M (value * value) :=
  user_info <- lift (extract_user_info_from_chat W chat_history) ;;
  name <- lift (py_get user_info "name" (VStr "Unknown")) ;;
  company <- lift (py_get user_info "company" (VStr "Unknown")) ;;
  ret (name, company).

Definition save_conversation (req : request) : M response :=
  try_except
    (data <- lift (get_json req) ;;
     absent <- (if negb (truthy data) then ret true
                else (present <- lift (py_contains "chat_history" data) ;;
                      ret (negb present))) ;;
     if (absent : bool) then
       ret (jsonify [("error", VStr "No chat history provided")] 400)
     else
       chat_history <- lift (py_index data "chat_history") ;;
       if negb (truthy chat_history) then
         ret (jsonify [("error", VStr "Chat history is empty")] 400)
       else
         message_count <- lift (py_len chat_history) ;;
         extracted <- extract_with_module chat_history ;;
         let name := fst extracted in
         let company := snd extracted in
         lift (get_supabase_client W) ;;
         result <- run_save_blocking name company chat_history ;;
         record_id <- (if truthy result then lift (py_get result "id" VNone)
                       else ret VNone) ;;
         ret (jsonify
                [("success", VBool true);
                 ("name", name);
                 ("company", company);
                 ("message_count", VInt (Z.of_nat message_count));
                 ("record_id", record_id)]
                200))
    (fun e => ret (jsonify [("error", VStr (exn_message e))] 500)).

End Server.

(** ** The extractor module of the synchronous path *)

(** Modelled from the spec: [llm_extractor.extract_user_info_from_chat], the
    function that [save_conversation] imports; the module [llm_extractor] is
    not among the sources.  Sections 3 and 4.3 of the spec describe it: the
    result is an entity with the two fields [name] and [company], both text
    and never null or absent; the transcript goes into one completion
    request; the response is parsed strictly as an object with [name] and
    [company]; on any parse failure (malformed JSON, missing fields,
    non-JSON text) the result is ["Unknown"] for both rather than a failure
    of the caller; a failure of the completion service propagates.  The spec
    does not word the request, so the model takes what the service answers
    to it, [response], and the transcript decides nothing else. *)
Definition extract_user_info_from_chat_spec (B : Builtins)
    (response : outcome (option string)) (chat_history : value)
  : outcome value :=
  let entity (name company : string) :=
    Returns (VDict [("name", VStr name); ("company", VStr company)]) in
  match response with
  | Raises e => Raises e
  | Returns None => entity "Unknown" "Unknown"
  | Returns (Some text) =>
      match json_loads B text with
      | Returns (VDict d) =>
          match lookup "name" d, lookup "company" d with
          | Some (VStr name), Some (VStr company) => entity name company
          | _, _ => entity "Unknown" "Unknown"
          end
      | _ => entity "Unknown" "Unknown"
      end
  end.

(** The deployment [W] with a completion service that answers [response] to
    every request, and with that extractor behind [save_conversation]. *)
Definition with_spec_extractor (B : Builtins) (W : World)
    (response : outcome (option string)) : World :=
  {| thread := thread W;
     get_supabase_client := get_supabase_client W;
     storage_save := storage_save W;
     storage_query := storage_query W;
     chat_completion := fun _ => response;
     extract_user_info_from_chat := extract_user_info_from_chat_spec B response |}.


(** ** A runtime to compute with

    An instance of [Builtins] for the worked examples: [int] and [strip] on
    ASCII text, [str] on [None], [bool] and [int], and [json.loads] on the
    few texts the examples decode. *)

Module Sample.

Definition is_space (c : ascii) : bool :=
  let n := nat_of_ascii c in
  ((9 <=? n) && (n <=? 13) || (n =? 32))%nat.

Fixpoint lstrip (s : string) : string :=
  match s with
  | String c rest => if is_space c then lstrip rest else s
  | EmptyString => EmptyString
  end.

Fixpoint rstrip (s : string) : string :=
  match s with
  | EmptyString => EmptyString
  | String c rest =>
      match rstrip rest with
      | EmptyString => if is_space c then EmptyString else String c EmptyString
      | kept => String c kept
      end
  end.

Definition strip (s : string) : string := rstrip (lstrip s).

Definition digit (c : ascii) : option Z :=
  let n := nat_of_ascii c in
  if ((48 <=? n) && (n <=? 57))%nat then Some (Z.of_nat (n - 48)) else None.

(** Decimal digits, a single underscore allowed between two digits. *)
Fixpoint digits (acc : Z) (after_digit : bool) (s : string) : option Z :=
  match s with
  | EmptyString => if after_digit then Some acc else None
  | String c rest =>
      match digit c with
      | Some d => digits (10 * acc + d) true rest
      | None =>
          if (after_digit && (nat_of_ascii c =? 95)%nat)%bool then digits acc false rest
          else None
      end
  end.

Definition int (text : string) : outcome Z :=
  let invalid :=
    Raises (Exn ValueError ("invalid literal for int() with base 10: '" ++ text ++ "'")) in
  match strip text with
  | String "-" rest =>
      match digits 0 false rest with Some n => Returns (- n)%Z | None => invalid end
  | String "+" rest =>
      match digits 0 false rest with Some n => Returns n | None => invalid end
  | rest =>
      match digits 0 false rest with Some n => Returns n | None => invalid end
  end.

Definition digit_char (d : nat) : string :=
  String (ascii_of_nat (48 + d)) EmptyString.

Fixpoint decimal (fuel : nat) (n : nat) (acc : string) : string :=
  match fuel with
  | O => acc
  | S fuel' =>
      let acc' := digit_char (n mod 10) ++ acc in
      if (n / 10 =? 0)%nat then acc' else decimal fuel' (n / 10) acc'
  end.

Definition str (v : value) : string :=
  match v with
  | VNone => "None"
  | VBool true => "True"
  | VBool false => "False"
  | VInt n =>
      let digits := decimal (S (Z.abs_nat n)) (Z.abs_nat n) "" in
      if (n <? 0)%Z then "-" ++ digits else digits
  | VStr s => s
  | VFloat _ | VList _ | VDict _ => "..."   (* not worked out: no example formats one *)
  end.

Definition q (s : string) : string := dquote ++ s ++ dquote.

(** [{"name": "Alice", "company": "Acme"}] *)
Definition alice_at_acme : string :=
  "{" ++ q "name" ++ ": " ++ q "Alice" ++ ", " ++ q "company" ++ ": " ++ q "Acme" ++ "}".

(** [{"name": "Alice"}] *)
Definition alice_only : string := "{" ++ q "name" ++ ": " ++ q "Alice" ++ "}".

(** Text that is no JSON at all. *)
Definition prose : string := "The client is Alice from Acme.".

(** [json.loads] on the texts above.  Every other text is treated as
    undecodable, which is what [json.loads] says of [prose]; the examples
    decode nothing else. *)
Definition loads (text : string) : outcome value :=
  if text =? alice_at_acme then
    Returns (VDict [("name", VStr "Alice"); ("company", VStr "Acme")])
  else if text =? alice_only then
    Returns (VDict [("name", VStr "Alice")])
  else
    Raises (Exn ValueError "Expecting value: line 1 column 1 (char 0)").

Definition runtime : Builtins :=
  {| json_loads := loads; py_int := int; py_str := str; str_strip := strip |}.

(** One message of a transcript. *)
Definition message (speaker text : string) : value :=
  VDict [("speaker", VStr speaker); ("message", VStr text)].

Definition transcript : value :=
  VList [message "User" "My name is Alice, I work at Acme"].

Definition post (payload : value) : request :=
  {| args := []; get_json := Returns payload |}.

Definition get (query : list (string * string)) : request :=
  {| args := query; get_json := Returns VNone |}.

(** A deployment in which every collaborator answers: the store assigns id 7
    and holds no chats, the completion and the extractor name Alice at Acme. *)
Definition calm : World :=
  {| thread := NoLoop;
     get_supabase_client := Returns tt;
     storage_save := fun _ _ _ _ => Returns (VDict [("id", VInt 7)]);
     storage_query := fun _ _ _ => Returns (VList []);
     chat_completion := fun _ => Returns (Some alice_at_acme);
     extract_user_info_from_chat := fun _ =>
       Returns (VDict [("name", VStr "Alice"); ("company", VStr "Acme")]) |}.

(** The store fails the first write of a request and accepts the next. *)
Definition flaky : World :=
  {| thread := IdleLoop;
     get_supabase_client := Returns tt;
     storage_save := fun attempt _ _ _ =>
       match attempt with
       | O => Raises (Exn OtherException "Server disconnected")
       | S _ => Returns (VDict [("id", VInt 8)])
       end;
     storage_query := fun _ _ _ => Returns (VList []);
     chat_completion := fun _ => Returns (Some alice_at_acme);
     extract_user_info_from_chat := fun _ =>
       Returns (VDict [("name", VStr "Alice"); ("company", VStr "Acme")]) |}.

(** The store answers every write with an error report and keeps nothing. *)
Definition refusing : World :=
  {| thread := IdleLoop;
     get_supabase_client := Returns tt;
     storage_save := fun _ _ _ _ => Returns (VDict [("error", VStr "insert failed")]);
     storage_query := fun _ _ _ => Returns (VList []);
     chat_completion := fun _ => Returns (Some alice_at_acme);
     extract_user_info_from_chat := fun _ =>
       Returns (VDict [("name", VStr "Alice"); ("company", VStr "Acme")]) |}.

(** The completion service is down. *)
Definition silent : World :=
  {| thread := NoLoop;
     get_supabase_client := Returns tt;
     storage_save := fun _ _ _ _ => Returns (VDict [("id", VInt 7)]);
     storage_query := fun _ _ _ => Returns (VList []);
     chat_completion := fun _ => Raises (Exn OtherException "Connection error.");
     extract_user_info_from_chat := fun _ =>
       Raises (Exn OtherException "Connection error.") |}.

(** [POST] of [{"chat_history": [...]}] with the one-message transcript. *)
Definition conversation : request := post (VDict [("chat_history", transcript)]).

(** A registry listing two rooms, the first of which collides with the
    first identifier drawn below. *)
Definition two_rooms : RoomNames.Registry :=
  {| RoomNames.connect := Returns tt;
     RoomNames.list_rooms := Returns [ {| RoomNames.room_name := "room-3f2b8c1a" |};
                                       {| RoomNames.room_name := "room-lobby" |} ];
     RoomNames.aclose := Returns tt |}.

Definition drawn : list string :=
  [ "3f2b8c1a-07d4-4e6b-9a51-2c8f0e1d7b36";
    "9d4e7a10-5b2c-4f83-8e67-1a0c3d5f9b24" ].

(** A registry that cannot be reached. *)
Definition unreachable : RoomNames.Registry :=
  {| RoomNames.connect := Returns tt;
     RoomNames.list_rooms := Raises (Exn OtherException "Cannot connect to host");
     RoomNames.aclose := Returns tt |}.

(** The completion service answers in prose. *)
Definition chatty : World :=
  {| thread := NoLoop;
     get_supabase_client := Returns tt;
     storage_save := fun _ _ _ _ => Returns (VDict [("id", VInt 7)]);
     storage_query := fun _ _ _ => Returns (VList []);
     chat_completion := fun _ => Returns (Some prose);
     extract_user_info_from_chat := fun _ => Returns (VDict []) |}.

End Sample.

(** ** Vocabulary of the statements *)

Definition unknown : value := VStr "Unknown".

(** The [chat_history] entry of the JSON object a request carries. *)
Definition submitted_history (req : request) : option value :=
  match get_json req with
  | Returns (VDict d) => lookup "chat_history" d
  | _ => None
  end.

(** The request carries no chat history: it has no JSON payload, or its
    payload is an object whose [chat_history] is missing or empty. *)
Definition no_chat_history (req : request) : bool :=
  match get_json req with
  | Returns VNone => true
  | Returns (VDict d) =>
      match lookup "chat_history" d with
      | None => true
      | Some history => negb (truthy history)
      end
  | _ => false
  end.

(** How many times [close] took effect on a loop. *)
Definition times_closed (l : loop) (t : trace) : nat :=
  List.length (filter (closes l) t).

Definition is_pool_created (e : event) : bool :=
  match e with PoolCreated => true | _ => false end.

Definition is_pool_shutdown (e : event) : bool :=
  match e with PoolShutdown => true | _ => false end.

Definition pools_created (t : trace) : nat := List.length (filter is_pool_created t).

Definition pools_shut_down (t : trace) : nat := List.length (filter is_pool_shutdown t).

(** ** [GET /getToken] *)

Module Token.
Import RoomNames.

(** [api.VideoGrants(room_join=True, room=room)] *)
Record video_grants : Type := { room_join : bool; room : string }.

(** The [api.AccessToken] as the builder calls leave it. *)
Record access_token : Type := {
  api_key : option string;
  api_secret : option string;
  identity : string;
  name : string;
  grants : video_grants
}.

(** What the builder calls of [get_token] put together for a participant
    and a room. *)
Definition token_for (getenv : string -> option string) (participant room : string)
  : access_token :=
  {| api_key := getenv "LIVEKIT_API_KEY";
     api_secret := getenv "LIVEKIT_API_SECRET";
     identity := participant;
     name := participant;
     grants := {| room_join := true; room := room |} |}.

(** The view function.  [getenv] is [os.getenv]; [to_jwt] stands for making
    the token object and signing it ([api.AccessToken(key, secret)] down to
    [.to_jwt()]), the work of the LiveKit library; [uuids] and [R] are what
    [generate_room_name] draws from and asks.  The view has no handler of its
    own: what it raises reaches Flask.  [None]: the allocation is still
    looping when the identifiers are used up. *)
Definition get_token (getenv : string -> option string)
    (to_jwt : access_token -> outcome string)
    (uuids : list string) (R : Registry) (req : request)
  : option (outcome string) :=
  let name := match args_get "name" (args req) with
              | Some given => given
              | None => "my name"
              end in
  let issue (room : string) := to_jwt (token_for getenv name room) in
  let allocate :=
    match generate_room_name uuids R with
    | None => None
    | Some (Raises e) => Some (Raises e)
    | Some (Returns room) => Some (issue room)
    end in
  match args_get "room" (args req) with
  | None => allocate
  | Some room => if room =? "" then allocate else Some (issue room)
  end.

(** [request.args.get("name", "my name")] *)
Definition participant_of (req : request) : string :=
  match args_get "name" (args req) with
  | Some given => given
  | None => "my name"
  end.

(** The name that the allocation settles on when the registry lists
    [rooms]: that of the first identifier whose name is not listed. *)
Definition first_free (rooms : list string) (uuids : list string) : option string :=
  option_map candidate (find (fun uuid => negb (name_in (candidate uuid) rooms)) uuids).

(** A key pair in the environment, and a stand-in for the signer that
    spells out whom the token is for instead of signing. *)
Module Demo.

Definition getenv (variable : string) : option string :=
  if variable =? "LIVEKIT_API_KEY" then Some "devkey"
  else if variable =? "LIVEKIT_API_SECRET" then Some "secret"
  else None.

Definition to_jwt (token : access_token) : outcome string :=
  match api_key token, api_secret token with
  | Some _, Some _ =>
      Returns ("jwt:" ++ identity token ++ "@" ++ room (grants token))
  | _, _ => Raises (Exn ValueError "api_key and api_secret must be set")
  end.

End Demo.

End Token.

(** A message of a chat history that is a JSON object. *)
Definition is_object (v : value) : bool :=
  match v with VDict _ => true | _ => false end.

(** The line of the conversation text that one message gives:
    [f"{speaker}: {message}\n"] with the defaults of the two lookups. *)
Definition message_line (B : Builtins) (msg : value) : string :=
  match msg with
  | VDict d =>
      format B (dict_get d "speaker" (VStr "Unknown")) ++ ": " ++
      format B (dict_get d "message" (VStr "")) ++ newline
  | _ => ""
  end.

(** The lines of several messages, one after the other. *)
Definition message_lines (B : Builtins) (messages : list value) : string :=
  fold_right (fun msg rest => message_line B msg ++ rest) "" messages.

(** * Properties *)

(** ** Room names *)

Module RoomNamesFacts.
Import RoomNames.

Lemma name_in_true (name : string) (rooms : list string) :
  name_in name rooms = true <-> In name rooms.
Proof.
  unfold name_in. rewrite existsb_exists. split.
  - intros [x [Hin Heq]]. apply String.eqb_eq in Heq. now subst.
  - intros Hin. exists name. split; [assumption | apply String.eqb_refl].
Qed.

Lemma name_in_false (name : string) (rooms : list string) :
  name_in name rooms = false <-> ~ In name rooms.
Proof.
  rewrite <- name_in_true. destruct (name_in name rooms); split; congruence.
Qed.

(** The loop ends on a name that is not taken, either the one it started
    with or one drawn later; it runs out of identifiers only when the
    starting name and every later draw are taken. *)
Lemma while_name_in_rooms_spec (rooms : list string) (uuids : list string) :
  forall name,
    match while_name_in_rooms rooms name uuids with
    | Some fresh =>
        ~ In fresh rooms /\
        (fresh = name \/ exists uuid, In uuid uuids /\ fresh = candidate uuid)
    | None =>
        In name rooms /\ forall uuid, In uuid uuids -> In (candidate uuid) rooms
    end.
Proof.
  induction uuids as [| uuid later IH]; intros name; simpl.
  - destruct (name_in name rooms) eqn:Htaken.
    + split; [now apply name_in_true | intros ? []].
    + split; [now apply name_in_false | now left].
  - destruct (name_in name rooms) eqn:Htaken.
    + specialize (IH (candidate uuid)).
      destruct (while_name_in_rooms rooms (candidate uuid) later) as [fresh |].
      * destruct IH as [Hfresh [-> | [u [Hu ->]]]]; split; try assumption; right.
        -- exists uuid. split; [now left | reflexivity].
        -- exists u. split; [now right | reflexivity].
      * destruct IH as [Hfirst Hlater]. split; [now apply name_in_true |].
        intros u [<- | Hu]; [assumption | now apply Hlater].
    + split; [now apply name_in_false | now left].
Qed.

(** C6. Whatever rooms the registry lists during the call and whatever
    identifiers [uuid.uuid4()] hands out, a name that [generate_room_name]
    returns is not among the listed rooms (and is the prefix plus the first
    eight characters of one of the identifiers drawn); with the registry
    answering the call never raises, and it is still looping after the
    identifiers considered only if every one of them gave a listed name. *)
Theorem generate_room_name_not_listed
    (uuids : list string) (R : Registry) (rooms : list string) :
  get_rooms R = Returns rooms ->
  match generate_room_name uuids R with
  | Some (Returns name) =>
      ~ In name rooms /\ exists uuid, In uuid uuids /\ name = candidate uuid
  | Some (Raises _) => False
  | None => forall uuid, In uuid uuids -> In (candidate uuid) rooms
  end.
Proof.
  intros Hrooms. unfold generate_room_name.
  destruct uuids as [| uuid later]; [intros ? [] |].
  rewrite Hrooms.
  pose proof (while_name_in_rooms_spec rooms later (candidate uuid)) as Hloop.
  destruct (while_name_in_rooms rooms (candidate uuid) later) as [fresh |].
  - destruct Hloop as [Hfresh [-> | [u [Hu ->]]]]; split; try assumption.
    + exists uuid. split; [now left | reflexivity].
    + exists u. split; [now right | reflexivity].
  - destruct Hloop as [Hfirst Hlater].
    intros u [<- | Hu]; [assumption | now apply Hlater].
Qed.

Lemma generate_room_name_not_listed_witness :
  generate_room_name Sample.drawn Sample.two_rooms = Some (Returns "room-9d4e7a10") /\
  ~ In "room-9d4e7a10" ["room-3f2b8c1a"; "room-lobby"].
Proof.
  split; [reflexivity |].
  exact (proj1 (generate_room_name_not_listed Sample.drawn Sample.two_rooms eq_refl)).
Defined.

(** When the registry call fails the allocator fails with the same error. *)
Lemma generate_room_name_registry_error
    (uuid : string) (later : list string) (R : Registry) (e : exn) :
  get_rooms R = Raises e ->
  generate_room_name (uuid :: later) R = Some (Raises e).
Proof. intros H. unfold generate_room_name. now rewrite H. Qed.

End RoomNamesFacts.

(** ** Texts *)

Lemma characters_after_count (s current : string) :
  List.length (characters_after current s) = S (characters_begun s).
Proof.
  revert current. induction s as [| c s IH]; intros current; cbn; [reflexivity |].
  destruct (is_continuation c); cbn; now rewrite IH.
Qed.

(** Iterating over a text visits as many characters as [len] counts. *)
Lemma characters_count (s : string) : List.length (characters s) = str_len s.
Proof. destruct s as [| c s]; [reflexivity | apply characters_after_count]. Qed.

Example str_len_counts_characters :
  str_len "héllo" = 5 /\ List.length (characters "héllo") = 5 /\ String.length "héllo" = 6.
Proof. repeat split. Qed.

(** ** Running the model *)

(** Unfolds the monad so that a view function becomes nested matches on the
    outcomes of its steps. *)
Ltac unfold_py :=
  unfold try_except, try_except_RuntimeError, try_finally, bind, lift, ret,
    raise, emit in *.

(** ** [GET /get_chats] *)

Section GetChats.

Variable B : Builtins.
Variable W : World.

(** C10. When [limit] is present and [int] rejects its text, the request is
    answered by the catch-all handler with status 500 and the conversion
    error in the body, and nothing was asked of the store: the conversion
    comes first and no validation answers 400. *)
Theorem get_chats_limit_not_an_integer (req : request) (text : string) (e : exn) :
  args_get "limit" (args req) = Some text ->
  py_int B text = Raises e ->
  get_chats B W req [] =
    (Returns (jsonify [("error", VStr ("Internal server error: " ++ exn_message e))] 500),
     []).
Proof.
  intros Hlimit Hint. unfold get_chats. unfold_py.
  rewrite Hlimit, Hint. reflexivity.
Qed.

(** C3, as the code has it. Whatever integer [limit] parses to, positive or
    not, it reaches the store unchanged; the answer is 200 with the chats and
    their count when the store returns them, 500 when the store call fails,
    and never 400. *)
Theorem get_chats_limit_passed_through (req : request) (text : string) (n : Z) :
  args_get "limit" (args req) = Some text ->
  py_int B text = Returns n ->
  get_supabase_client W = Returns tt ->
  let name := args_get "name" (args req) in
  let company_name := args_get "company_name" (args req) in
  exists r,
    get_chats B W req [] = (Returns r, [StorageQuery name company_name n]) /\
    status r <> 400%Z /\
    match storage_query W name company_name n with
    | Returns chats =>
        match py_len chats with
        | Returns count =>
            r = jsonify [("success", VBool true); ("chats", chats);
                         ("count", VInt (Z.of_nat count))] 200
        | Raises e =>
            r = jsonify [("error", VStr ("Internal server error: " ++ exn_message e))] 500
        end
    | Raises e =>
        r = jsonify [("error", VStr ("Internal server error: " ++ exn_message e))] 500
    end.
Proof.
  intros Hlimit Hint Hclient name company_name.
  unfold get_chats, get_chat_history. unfold_py.
  rewrite Hlimit, Hint, Hclient. fold name company_name.
  destruct (storage_query W name company_name n) as [chats | e].
  - destruct (py_len chats) as [count | e];
      eexists; (split; [reflexivity | split; [discriminate | reflexivity]]).
  - eexists; (split; [reflexivity | split; [discriminate | reflexivity]]).
Qed.

End GetChats.

Lemma get_chats_limit_not_an_integer_witness :
  get_chats Sample.runtime Sample.calm (Sample.get [("limit", "abc")]) [] =
    (Returns (jsonify
                [("error",
                  VStr "Internal server error: invalid literal for int() with base 10: 'abc'")]
                500),
     []).
Proof.
  exact (get_chats_limit_not_an_integer Sample.runtime Sample.calm
           (Sample.get [("limit", "abc")]) eq_refl eq_refl).
Defined.

(** C3, as stated, fails: [limit=0] is not rejected. The store is queried
    with limit 0 and the request is answered 200. *)
Lemma get_chats_limit_zero_accepted :
  get_chats Sample.runtime Sample.calm (Sample.get [("limit", "0")]) [] =
    (Returns (jsonify [("success", VBool true); ("chats", VList []); ("count", VInt 0)] 200),
     [StorageQuery None None 0]).
Proof. reflexivity. Qed.

Lemma get_chats_limit_passed_through_witness :
  exists r,
    get_chats Sample.runtime Sample.calm (Sample.get [("limit", "-5")]) [] =
      (Returns r, [StorageQuery None None (-5)]) /\
    status r <> 400%Z /\
    r = jsonify [("success", VBool true); ("chats", VList []); ("count", VInt 0)] 200.
Proof.
  exact (get_chats_limit_passed_through Sample.runtime Sample.calm
           (Sample.get [("limit", "-5")]) eq_refl eq_refl eq_refl).
Defined.

(** ** [POST /extract_client_info]: reading the completion *)

Section ParseClientInfo.

Variable B : Builtins.

(** The inner [try] as one equation: the handler turns every failure of
    [json.loads] and of [.get] into the pair of defaults. *)
Lemma parse_client_info_reads (result_text : string) (t : trace) :
  parse_client_info B result_text t =
    (Returns match json_loads B result_text with
             | Returns (VDict d) => (dict_get d "name" unknown, dict_get d "company" unknown)
             | _ => (unknown, unknown)
             end,
     t).
Proof.
  unfold parse_client_info. unfold_py.
  destruct (json_loads B result_text) as [[| b | n | f | s | items | d] | e];
    reflexivity.
Qed.


End ParseClientInfo.

(** X4. With a non-empty chat history of messages and a completion that
    carries text, [/extract_client_info] answers 200 whatever the text is:
    no failure of the parse step reaches the catch-all handler. *)
Lemma extract_client_info_absorbs_parse_failure
    (B : Builtins) (W : World) (req : request) (d : dict)
    (messages : list value) (conversation_text content : string) :
  get_json req = Returns (VDict d) ->
  lookup "chat_history" d = Some (VList messages) ->
  messages <> [] ->
  render_conversation B messages "" = Returns conversation_text ->
  chat_completion W (extraction_prompt conversation_text) = Returns (Some content) ->
  exists name company,
    fst (extract_client_info B W req []) =
      Returns (jsonify [("success", VBool true); ("name", name); ("company", company)] 200).
Proof.
  intros Hbody Hhistory Hne Hrender Hanswer.
  unfold extract_client_info, extract_inline, complete. unfold_py.
  rewrite Hbody.
  assert (Hd : truthy (VDict d) = true) by (destruct d; [discriminate | reflexivity]).
  rewrite Hd. cbn [negb py_get]. unfold dict_get. rewrite Hhistory.
  destruct messages as [| m ms]; [congruence |].
  cbn [truthy negb py_iter]. rewrite Hrender, Hanswer.
  rewrite parse_client_info_reads. cbn. now eexists; eexists.
Qed.

Lemma extract_client_info_absorbs_parse_failure_witness :
  exists name company,
    fst (extract_client_info Sample.runtime Sample.chatty Sample.conversation []) =
      Returns (jsonify [("success", VBool true); ("name", name); ("company", company)] 200).
Proof.
  refine (extract_client_info_absorbs_parse_failure Sample.runtime Sample.chatty
            Sample.conversation eq_refl eq_refl _ eq_refl eq_refl).
  discriminate.
Defined.

(** The two cases the spec lists as tests: a completion that is the
    expected object, and one that is no JSON. *)
Example parse_client_info_object :
  parse_client_info Sample.runtime Sample.alice_at_acme [] =
    (Returns (VStr "Alice", VStr "Acme"), []).
Proof. reflexivity. Qed.

Example parse_client_info_prose :
  parse_client_info Sample.runtime Sample.prose [] =
    (Returns (VStr "Unknown", VStr "Unknown"), []).
Proof. reflexivity. Qed.


(** ** [POST /save_chat] *)

Section SaveChat.

Variable B : Builtins.
Variable W : World.

Lemma truthy_len (v : value) (n : nat) :
  truthy v = true -> py_len v = Returns n -> exists m, n = S m.
Proof.
  destruct v as [| b | z | f | s | items | d]; simpl; try discriminate.
  - destruct s; [discriminate |]. intros _ [= <-]. now eexists.
  - destruct items; [discriminate |]. intros _ [= <-]. now eexists.
  - destruct d; [discriminate |]. intros _ [= <-]. now eexists.
Qed.

Lemma save_chat_no_history (req : request) :
  no_chat_history req = true ->
  exists r, save_chat B W req [] = (Returns r, []) /\ status r = 400%Z.
Proof.
  unfold no_chat_history, save_chat. unfold_py.
  destruct (get_json req) as [[| b | z | f | s | items | d] | e]; try discriminate.
  - intros _. eexists. split; reflexivity.
  - destruct d as [| entry d']; [intros _; eexists; split; reflexivity |].
    cbn [truthy negb py_get]. unfold dict_get.
    destruct (lookup "chat_history" (entry :: d')) as [history |].
    + intros Hempty. apply negb_true_iff in Hempty. rewrite Hempty. cbn.
      eexists. split; reflexivity.
    + intros _. cbn. eexists. split; reflexivity.
Qed.

(** Every storage write that [save_chat] makes carries the submitted chat
    history, and that history has at least one item. *)
Lemma save_chat_write_has_history (req : request) (name company history : value) :
  In (StorageWrite name company history) (snd (save_chat B W req [])) ->
  submitted_history req = Some history /\ exists n, py_len history = Returns (S n).
Proof.
  unfold submitted_history, save_chat, save_chat_history. unfold_py.
  destruct (get_json req) as [data | e]; [| intros []].
  destruct (truthy data) eqn:Hdata; [| intros []]. cbn [negb].
  destruct data as [| b | z | f | s | items | d]; try (intros []).
  cbn [py_get]. unfold dict_get.
  destruct (lookup "chat_history" d) as [h |]; [| intros []].
  destruct (truthy h) eqn:Hh; [| intros []]. cbn [negb].
  destruct (py_len h) as [count |] eqn:Hlen; [| intros []].
  destruct (truthy_len h Hh Hlen) as [m ->].
  destruct (get_supabase_client W); [| intros []].
  cbn [writes filter List.length].
  destruct (storage_save W 0 _ _ h) as [result |]; cbn.
  - destruct (py_contains "error" result) as [[|] |]; cbn;
      [destruct (py_index result "error"); cbn | destruct (py_get result "id" VNone); cbn |];
      (intros [[= _ _ <-] | []]; split; [reflexivity | now exists m]).
  - intros [[= _ _ <-] | []]; split; [reflexivity | now exists m].
Qed.

(** A payload that is no JSON object never gets as far as the chat
    history: a falsy one is answered 400, a truthy one fails on [data.get]
    and is answered 500 by the catch-all handler, as is a body that
    [get_json] cannot read; nothing is written. *)
Lemma save_chat_without_object (req : request) :
  match get_json req with
  | Returns (VDict _) => True
  | Returns data =>
      exists r, save_chat B W req [] = (Returns r, []) /\
                status r = (if truthy data then 500 else 400)%Z
  | Raises e =>
      save_chat B W req [] =
        (Returns (jsonify [("error", VStr ("Internal server error: " ++ exn_message e))] 500),
         [])
  end.
Proof.
  unfold save_chat. unfold_py.
  destruct (get_json req) as [[| b | z | f | s | items | d] | e]; cbn;
    try exact I; try reflexivity.
  - eexists. split; reflexivity.
  - destruct b; eexists; split; reflexivity.
  - destruct (z =? 0)%Z; eexists; split; reflexivity.
  - destruct (PrimFloat.eqb f 0); eexists; split; reflexivity.
  - destruct s; eexists; split; reflexivity.
  - destruct items; eexists; split; reflexivity.
Qed.

(** C5, as the code has it. For a request whose payload is an object with
    a non-empty list as [chat_history], the answer has [success] true and
    [message_count] the length of the list when the store returns a record
    (an object without an [error] entry), and status 500 when the store
    cannot be reached, raises, or reports an error. A request with no
    payload, or with an object whose [chat_history] is missing or empty, is
    answered 400. A payload that is no object is answered 400 when falsy and
    500 when truthy, and a body that cannot be read is answered 500. In none
    of the last three cases is anything written. *)
Theorem save_chat_contract (req : request) :
  (forall (d : dict) (messages : list value),
      get_json req = Returns (VDict d) ->
      lookup "chat_history" d = Some (VList messages) ->
      messages <> [] ->
      let name := dict_get d "name" (VStr "Unknown") in
      let company_name := dict_get d "company_name" (VStr "Unknown Company") in
      exists r, fst (save_chat B W req []) = Returns r /\
        match get_supabase_client W with
        | Raises _ => status r = 500%Z
        | Returns _ =>
            match storage_save W 0 name company_name (VList messages) with
            | Returns (VDict result) =>
                if has_key "error" result then status r = 500%Z
                else r = jsonify
                           [("success", VBool true);
                            ("message",
                             VStr ("Chat history saved successfully for " ++ format B name));
                            ("record_id", dict_get result "id" VNone);
                            ("message_count", VInt (Z.of_nat (List.length messages)))]
                           200
            | _ => status r = 500%Z
            end
        end) /\
  (no_chat_history req = true ->
   exists r, save_chat B W req [] = (Returns r, []) /\ status r = 400%Z) /\
  match get_json req with
  | Returns (VDict _) => True
  | Returns data =>
      exists r, save_chat B W req [] = (Returns r, []) /\
                status r = (if truthy data then 500 else 400)%Z
  | Raises e =>
      save_chat B W req [] =
        (Returns (jsonify [("error", VStr ("Internal server error: " ++ exn_message e))] 500),
         [])
  end.
Proof.
  split; [| split; [apply save_chat_no_history | apply save_chat_without_object]].
  intros d messages Hbody Hhistory Hne name company_name.
  unfold save_chat, save_chat_history. unfold_py. rewrite Hbody.
  assert (Hd : truthy (VDict d) = true) by (destruct d; [discriminate | reflexivity]).
  assert (Hget : dict_get d "chat_history" (VList []) = VList messages)
    by (unfold dict_get; now rewrite Hhistory).
  rewrite Hd. cbn [negb py_get]. rewrite Hget. fold name company_name.
  destruct messages as [| m ms]; [congruence |].
  cbn [truthy negb py_len].
  destruct (get_supabase_client W); [| eexists; split; reflexivity].
  cbn [writes filter List.length].
  destruct (storage_save W 0 name company_name (VList (m :: ms)))
    as [[| b | z | f | s | items | result] | e]; cbn;
    try (eexists; split; reflexivity).
  - destruct (is_substring "error" s); eexists; split; reflexivity.
  - destruct (existsb (equals_str "error") items); eexists; split; reflexivity.
  - unfold has_key. destruct (lookup "error" result); eexists; split; reflexivity.
Qed.

End SaveChat.

(** ** [POST /save-conversation]: the storage coroutine run from synchronous code *)

Section Bridge.

Variable W : World.
Variables name company history : value.

Let first_attempt := storage_save W 0 name company history.
Let second_attempt := storage_save W 1 name company history.
Let write := StorageWrite name company history.

Ltac unfold_asyncio :=
  unfold run_save_blocking, with_thread_pool, asyncio_run, run_until_complete, close,
    new_event_loop, set_event_loop, get_event_loop, is_closed, is_running,
    loop_running_here, save_chat_history;
  unfold_py.

(** What [run_save_blocking] does, branch by branch: the loop it finds
    decides between driving the coroutine on a loop of the thread and
    handing it to a worker; when that attempt raises, the handler makes a
    fresh loop and drives a second coroutine on it, unless a loop is running
    in the thread, in which case [run_until_complete] refuses. *)
Lemma run_save_blocking_branches :
  run_save_blocking W name company history [] =
    match thread W with
    | NoLoop | ClosedLoop =>
        let made := [write; LoopInstalled (NewLoop 0); LoopCreated (NewLoop 0)] in
        match first_attempt with
        | Returns result => (Returns result, made)
        | Raises _ =>
            match second_attempt with
            | Returns result =>
                (Returns result,
                 LoopClosed (NewLoop 1) :: write :: LoopCreated (NewLoop 1) :: made)
            | Raises e => (Raises e, write :: LoopCreated (NewLoop 1) :: made)
            end
        end
    | IdleLoop =>
        match first_attempt with
        | Returns result => (Returns result, [write])
        | Raises _ =>
            match second_attempt with
            | Returns result =>
                (Returns result,
                 [LoopClosed (NewLoop 0); write; LoopCreated (NewLoop 0); write])
            | Raises e => (Raises e, [write; LoopCreated (NewLoop 0); write])
            end
        end
    | RunningLoop =>
        let worked :=
          [PoolShutdown; LoopClosed (NewLoop 0); write; LoopCreated (NewLoop 0);
           PoolCreated] in
        match first_attempt with
        | Returns result => (Returns result, worked)
        | Raises _ =>
            (Raises (Exn RuntimeError
                       "Cannot run the event loop while another loop is running"),
             LoopCreated (NewLoop 1) :: worked)
        end
    | BusyLoop =>
        let worked :=
          [PoolShutdown; LoopClosed (NewLoop 0); write; LoopCreated (NewLoop 0);
           PoolCreated] in
        match first_attempt with
        | Returns result => (Returns result, worked)
        | Raises _ =>
            match second_attempt with
            | Returns result =>
                (Returns result,
                 LoopClosed (NewLoop 1) :: write :: LoopCreated (NewLoop 1) :: worked)
            | Raises e => (Raises e, write :: LoopCreated (NewLoop 1) :: worked)
            end
        end
    end.
Proof.
  unfold_asyncio. subst first_attempt second_attempt write.
  destruct (thread W); cbn;
    destruct (storage_save W 0 name company history); cbn; try reflexivity;
    destruct (storage_save W 1 name company history); reflexivity.
Qed.

End Bridge.

Section SaveConversation.

Variable W : World.

Lemma save_conversation_no_history (req : request) :
  no_chat_history req = true ->
  exists r, save_conversation W req [] = (Returns r, []) /\ status r = 400%Z.
Proof.
  unfold no_chat_history, save_conversation. unfold_py.
  destruct (get_json req) as [[| b | z | f | s | items | d] | e]; try discriminate.
  - intros _. eexists. split; reflexivity.
  - destruct d as [| entry d']; [intros _; eexists; split; reflexivity |].
    cbn [truthy negb py_contains py_index]. unfold has_key.
    destruct (lookup "chat_history" (entry :: d')) as [h |].
    + intros Hempty. rewrite Hempty. cbn. eexists. split; reflexivity.
    + intros _. cbn. eexists. split; reflexivity.
Qed.

(** A request either is answered before the storage coroutine is made, with
    no effect and another status than 200, or reaches [run_save_blocking]
    with the submitted chat history, which then has at least one item; the
    effects of the request are those of that call, and it is answered 200
    only when the call returned a result. *)
Lemma save_conversation_reaches_bridge (req : request) :
  (exists r, save_conversation W req [] = (Returns r, []) /\ status r <> 200%Z) \/
  (exists name company history r,
      submitted_history req = Some history /\
      (exists n, py_len history = Returns (S n)) /\
      save_conversation W req [] =
        (Returns r, snd (run_save_blocking W name company history [])) /\
      (status r = 200%Z ->
       exists result, fst (run_save_blocking W name company history []) = Returns result)).
Proof.
  unfold submitted_history, save_conversation, extract_with_module. unfold_py.
  destruct (get_json req) as [data | e];
    [| left; eexists; split; [reflexivity | discriminate]].
  destruct (truthy data) eqn:Hdata; cbn [negb];
    [| left; eexists; split; [reflexivity | discriminate]].
  destruct (py_contains "chat_history" data) as [[|] | e] eqn:Hin; cbn [negb];
    try (left; eexists; split; [reflexivity | discriminate]).
  destruct (py_index data "chat_history") as [h | e] eqn:Hindex;
    [| left; eexists; split; [reflexivity | discriminate]].
  destruct data as [| b | z | f | s | items | d]; try discriminate.
  cbn [py_index] in Hindex.
  destruct (lookup "chat_history" d) as [h' |] eqn:Hlookup; [| discriminate].
  injection Hindex as ->.
  destruct (truthy h) eqn:Hh; cbn [negb];
    [| left; eexists; split; [reflexivity | discriminate]].
  destruct (py_len h) as [count | e] eqn:Hlen;
    [| left; eexists; split; [reflexivity | discriminate]].
  destruct (truthy_len h Hh Hlen) as [m ->].
  destruct (extract_user_info_from_chat W h) as [user_info | e];
    [| left; eexists; split; [reflexivity | discriminate]].
  destruct (py_get user_info "name" (VStr "Unknown")) as [name | e];
    [| left; eexists; split; [reflexivity | discriminate]].
  destruct (py_get user_info "company" (VStr "Unknown")) as [company | e];
    [| left; eexists; split; [reflexivity | discriminate]].
  cbn [fst snd].
  destruct (get_supabase_client W);
    [| left; eexists; split; [reflexivity | discriminate]].
  right. exists name, company, h.
  destruct (run_save_blocking W name company h []) as [[result | e] t]; cbn [fst snd].
  - destruct (truthy result).
    + destruct (py_get result "id" VNone); eexists;
        (split; [reflexivity | split; [now exists m | split; [reflexivity |]]]);
        intros; now eexists.
    + eexists. split; [reflexivity | split; [now exists m | split; [reflexivity |]]].
      intros; now eexists.
  - eexists. split; [reflexivity | split; [now exists m | split; [reflexivity |]]].
    cbn. discriminate.
Qed.

(** Every write of [run_save_blocking] carries the arguments it was given. *)
Lemma run_save_blocking_writes_arguments (name company history : value) (e : event) :
  In e (snd (run_save_blocking W name company history [])) ->
  is_write e = true -> e = StorageWrite name company history.
Proof.
  rewrite run_save_blocking_branches.
  destruct (thread W);
    destruct (storage_save W 0 name company history);
    try destruct (storage_save W 1 name company history); cbn;
    intros Hin Hw;
    repeat (destruct Hin as [<- | Hin]; [first [reflexivity | discriminate] |]);
    destruct Hin.
Qed.

(** X1. The storage coroutine is driven once when the first attempt
    returns, and when a loop is running in the thread; otherwise a first
    attempt that raises is followed by a second. *)
Lemma run_save_blocking_writes (name company history : value) :
  writes (snd (run_save_blocking W name company history [])) =
    match storage_save W 0 name company history, thread W with
    | Returns _, _ => 1
    | Raises _, RunningLoop => 1
    | Raises _, _ => 2
    end.
Proof.
  rewrite run_save_blocking_branches.
  destruct (thread W);
    destruct (storage_save W 0 name company history);
    try destruct (storage_save W 1 name company history); reflexivity.
Qed.

End SaveConversation.

(** X3. Whatever object the first write returns, with or without an
    [error] entry, a request that reached the write is answered 200 with
    [success] true: the result is only read for its [id]. *)
Lemma save_conversation_ignores_error_entry
    (W : World) (req : request) (d result : dict) (messages : list value)
    (user_info : dict) :
  get_json req = Returns (VDict d) ->
  lookup "chat_history" d = Some (VList messages) ->
  messages <> [] ->
  extract_user_info_from_chat W (VList messages) = Returns (VDict user_info) ->
  get_supabase_client W = Returns tt ->
  let name := dict_get user_info "name" (VStr "Unknown") in
  let company := dict_get user_info "company" (VStr "Unknown") in
  storage_save W 0 name company (VList messages) = Returns (VDict result) ->
  fst (save_conversation W req []) =
    Returns (jsonify
               [("success", VBool true);
                ("name", name);
                ("company", company);
                ("message_count", VInt (Z.of_nat (List.length messages)));
                ("record_id", match result with
                              | [] => VNone
                              | _ :: _ => dict_get result "id" VNone
                              end)]
               200).
Proof.
  intros Hbody Hhistory Hne Hinfo Hclient name company Hsave.
  unfold save_conversation, extract_with_module. unfold_py.
  rewrite Hbody.
  assert (Hd : truthy (VDict d) = true) by (destruct d; [discriminate | reflexivity]).
  rewrite Hd. cbn [negb py_contains py_index]. unfold has_key. rewrite Hhistory.
  destruct messages as [| m ms]; [congruence |].
  cbn [negb truthy py_len]. rewrite Hinfo. cbn [py_get fst snd]. rewrite Hclient.
  fold name company. rewrite run_save_blocking_branches. rewrite Hsave.
  destruct (thread W); destruct result; reflexivity.
Qed.

Lemma save_conversation_ignores_error_entry_witness :
  fst (save_conversation Sample.refusing Sample.conversation []) =
    Returns (jsonify
               [("success", VBool true);
                ("name", VStr "Alice");
                ("company", VStr "Acme");
                ("message_count", VInt 1);
                ("record_id", VNone)]
               200).
Proof.
  refine (save_conversation_ignores_error_entry Sample.refusing Sample.conversation
            (result := [("error", VStr "insert failed")])
            eq_refl eq_refl _ eq_refl eq_refl eq_refl).
  discriminate.
Defined.

(** ** Writes need a chat history *)

(** On [/save-conversation] too, a payload that is no JSON object, or a body
    that cannot be read, is answered 400 or 500 with no effect. *)
Lemma save_conversation_without_object (W : World) (req : request) :
  match get_json req with
  | Returns (VDict _) => True
  | _ =>
      exists r, save_conversation W req [] = (Returns r, []) /\
                (status r = 400%Z \/ status r = 500%Z)
  end.
Proof.
  unfold save_conversation. unfold_py.
  destruct (get_json req) as [[| b | z | f | s | items | d] | e]; cbn;
    try exact I.
  - eexists. split; [reflexivity | now left].
  - destruct b; eexists; (split; [reflexivity | auto]).
  - destruct (z =? 0)%Z; eexists; (split; [reflexivity | auto]).
  - destruct (PrimFloat.eqb f 0); eexists; (split; [reflexivity | auto]).
  - destruct s as [| c s]; [eexists; split; [reflexivity | auto] |]. cbn.
    destruct (is_substring "chat_history" (String c s)); cbn;
      eexists; (split; [reflexivity | auto]).
  - destruct items as [| item items]; [eexists; split; [reflexivity | auto] |]. cbn.
    destruct (equals_str "chat_history" item || existsb (equals_str "chat_history") items);
      cbn; eexists; (split; [reflexivity | auto]).
  - eexists. split; [reflexivity | now right].
Qed.

(** C9, as the code has it. On both endpoints that write a conversation
    record, a storage write only ever carries the chat history the request
    submitted, and that history has at least one item. A request with no
    payload, or with an object whose [chat_history] is missing or empty, is
    answered 400 with no effect at all, so before any write. A request whose
    payload is no object, or whose body cannot be read, is answered 400 or
    500, again with no effect. *)
Theorem write_needs_chat_history (B : Builtins) (W : World) (req : request) :
  (forall name company history,
      In (StorageWrite name company history) (snd (save_chat B W req [])) \/
      In (StorageWrite name company history) (snd (save_conversation W req [])) ->
      submitted_history req = Some history /\
      exists n, py_len history = Returns (S n)) /\
  (no_chat_history req = true ->
   exists r1 r2,
     save_chat B W req [] = (Returns r1, []) /\ status r1 = 400%Z /\
     save_conversation W req [] = (Returns r2, []) /\ status r2 = 400%Z) /\
  match get_json req with
  | Returns (VDict _) => True
  | _ =>
      exists r1 r2,
        save_chat B W req [] = (Returns r1, []) /\
        (status r1 = 400%Z \/ status r1 = 500%Z) /\
        save_conversation W req [] = (Returns r2, []) /\
        (status r2 = 400%Z \/ status r2 = 500%Z)
  end.
Proof.
  split; [| split].
  - intros name company history [Hin | Hin].
    + now apply (save_chat_write_has_history B W req name company).
    + destruct (save_conversation_reaches_bridge W req)
        as [[r [Hrun _]] | [name' [company' [h [r [Hsub [Hlen [Hrun _]]]]]]]];
        rewrite Hrun in Hin; cbn [snd] in Hin; [destruct Hin |].
      apply run_save_blocking_writes_arguments in Hin; [| reflexivity].
      injection Hin as _ _ ->. now split.
  - intros Hnone.
    destruct (save_chat_no_history B W req Hnone) as [r1 [H1 Hs1]].
    destruct (save_conversation_no_history W req Hnone) as [r2 [H2 Hs2]].
    now exists r1, r2.
  - pose proof (save_chat_without_object B W req) as Hchat.
    pose proof (save_conversation_without_object W req) as Hconversation.
    destruct (get_json req) as [[| b | z | f | s | items | d] | e]; try exact I;
      try (match type of Hchat with ex _ => idtac end;
           destruct Hchat as [r1 [H1 Hs1]]; destruct Hconversation as [r2 [H2 Hs2]];
           exists r1, r2; repeat split; try assumption;
           rewrite Hs1; now destruct (truthy _); auto).
    destruct Hconversation as [r2 [H2 Hs2]].
    eexists; exists r2. repeat split; [exact Hchat | now right | assumption | assumption].
Qed.

(** C9, as stated, fails: a payload that is the text ["hello"] has no chat
    history and [/save_chat] answers 500, not 400; so does
    [/save-conversation] for the payload [5]. *)
Lemma missing_history_answered_500 :
  save_chat Sample.runtime Sample.calm (Sample.post (VStr "hello")) [] =
    (Returns (jsonify
                [("error",
                  VStr "Internal server error: 'str' object has no attribute 'get'")]
                500),
     []) /\
  save_conversation Sample.calm (Sample.post (VInt 5)) [] =
    (Returns (jsonify [("error", VStr "argument of type 'int' is not iterable")] 500), []).
Proof. split; reflexivity. Qed.

Lemma write_needs_chat_history_witness :
  (submitted_history Sample.conversation = Some Sample.transcript /\
   exists n, py_len Sample.transcript = Returns (S n)) /\
  (exists r1 r2,
     save_chat Sample.runtime Sample.calm (Sample.post (VDict [("name", VStr "Bob")])) [] =
       (Returns r1, []) /\ status r1 = 400%Z /\
     save_conversation Sample.calm (Sample.post (VDict [("name", VStr "Bob")])) [] =
       (Returns r2, []) /\ status r2 = 400%Z).
Proof.
  split.
  - exact (proj1 (write_needs_chat_history Sample.runtime Sample.calm Sample.conversation)
             unknown (VStr "Unknown Company") Sample.transcript
             (or_introl (or_introl eq_refl))).
  - exact (proj1 (proj2 (write_needs_chat_history Sample.runtime Sample.calm
                           (Sample.post (VDict [("name", VStr "Bob")]))))
             eq_refl).
Defined.

(** C5, as stated, fails: the payload [[1]] carries no chat history, and the
    request is answered 500, not 400. *)
Lemma save_chat_list_payload_answered_500 :
  save_chat Sample.runtime Sample.calm (Sample.post (VList [VInt 1])) [] =
    (Returns (jsonify
                [("error",
                  VStr "Internal server error: 'list' object has no attribute 'get'")]
                500),
     []).
Proof. reflexivity. Qed.

Lemma save_chat_contract_witness :
  fst (save_chat Sample.runtime Sample.calm
         (Sample.post (VDict [("name", VStr "Bob"); ("chat_history", Sample.transcript)])) []) =
    Returns (jsonify
               [("success", VBool true);
                ("message", VStr "Chat history saved successfully for Bob");
                ("record_id", VInt 7);
                ("message_count", VInt 1)]
               200).
Proof.
  destruct (proj1 (save_chat_contract Sample.runtime Sample.calm
                     (Sample.post (VDict [("name", VStr "Bob");
                                          ("chat_history", Sample.transcript)])))
              _ _ eq_refl eq_refl ltac:(discriminate)) as [r [Hrun Hr]].
  cbn in Hr. rewrite Hrun, Hr. reflexivity.
Defined.

(** ** The storage coroutine: how often it runs, what it leaves open *)

(** C1 fails on the code. The store raises on the first write and accepts
    the second: the handler of the bridge drives the write a second time, on
    a fresh loop, and the request is answered 200 with the second record. *)
Theorem save_conversation_writes_twice :
  save_conversation Sample.flaky Sample.conversation [] =
    (Returns (jsonify
                [("success", VBool true);
                 ("name", VStr "Alice");
                 ("company", VStr "Acme");
                 ("message_count", VInt 1);
                 ("record_id", VInt 8)]
                200),
     [LoopClosed (NewLoop 0);
      StorageWrite (VStr "Alice") (VStr "Acme") Sample.transcript;
      LoopCreated (NewLoop 0);
      StorageWrite (VStr "Alice") (VStr "Acme") Sample.transcript]) /\
  writes (snd (save_conversation Sample.flaky Sample.conversation [])) = 2.
Proof. split; reflexivity. Qed.

(** C7 fails on the code. The store reports an error in its result and
    keeps nothing: the request is still answered 200 with [success] true,
    and [record_id] is [None]. *)
Theorem save_conversation_success_on_error_result :
  storage_save Sample.refusing 0 (VStr "Alice") (VStr "Acme") Sample.transcript =
    Returns (VDict [("error", VStr "insert failed")]) /\
  save_conversation Sample.refusing Sample.conversation [] =
    (Returns (jsonify
                [("success", VBool true);
                 ("name", VStr "Alice");
                 ("company", VStr "Acme");
                 ("message_count", VInt 1);
                 ("record_id", VNone)]
                200),
     [StorageWrite (VStr "Alice") (VStr "Acme") Sample.transcript]).
Proof. split; reflexivity. Qed.

(** The sibling endpoint answers the same store with status 500. *)
Lemma save_chat_error_result :
  save_chat Sample.runtime Sample.refusing
    (Sample.post (VDict [("name", VStr "Alice"); ("company_name", VStr "Acme");
                         ("chat_history", Sample.transcript)])) [] =
    (Returns (jsonify [("error", VStr "insert failed")] 500),
     [StorageWrite (VStr "Alice") (VStr "Acme") Sample.transcript]).
Proof. reflexivity. Qed.

Section SchedulerResources.

Variable W : World.

Ltac each_loop l :=
  destruct l as [| [| [| n]]]; cbn; try lia; try reflexivity; try discriminate.

(** Membership in an explicit trace, split into its cases. *)
Ltac break_in :=
  repeat match goal with
         | H : In _ _ |- _ => progress cbn in H
         | H : _ \/ _ |- _ => destruct H
         | H : False |- _ => destruct H
         | H : @eq event _ _ |- _ => first [discriminate H | injection H as <-]
         end.

Lemma run_save_blocking_resources (name company history : value) :
  let run := run_save_blocking W name company history [] in
  let t := snd run in
  pools_shut_down t = pools_created t /\
  (forall l, times_closed l t <= 1) /\
  (forall l, In (LoopInstalled l) t -> In (LoopCreated l) t /\ times_closed l t = 0) /\
  ((exists result, fst run = Returns result) ->
   forall l, In (LoopCreated l) t -> ~ In (LoopInstalled l) t -> times_closed l t = 1).
Proof.
  cbv zeta. rewrite run_save_blocking_branches.
  destruct (thread W);
    destruct (storage_save W 0 name company history);
    try destruct (storage_save W 1 name company history);
    cbn [fst snd]; (split; [reflexivity |]); (split; [intros l; each_loop l |]);
    (split;
     [ intros l Hin; break_in; (split; [cbn; tauto | reflexivity])
     | intros [result Hresult]; try discriminate Hresult;
       intros l Hmade Hkept; break_in;
       first [reflexivity | exfalso; apply Hkept; cbn; tauto] ]).
Qed.

(** C8, as the code has it. Whatever the request and the collaborators do:
    a thread pool that was made has been shut down when the endpoint
    returns; no loop is closed twice; a loop that the bridge installed as the
    thread's current loop was made by it and is left open; and when the
    request is answered 200, every other loop made on the way has been closed
    exactly once. *)
Theorem save_conversation_scheduler_resources (req : request) :
  let t := snd (save_conversation W req []) in
  pools_shut_down t = pools_created t /\
  (forall l, times_closed l t <= 1) /\
  (forall l, In (LoopInstalled l) t -> In (LoopCreated l) t /\ times_closed l t = 0) /\
  (forall r, fst (save_conversation W req []) = Returns r -> status r = 200%Z ->
             forall l, In (LoopCreated l) t -> ~ In (LoopInstalled l) t ->
                       times_closed l t = 1).
Proof.
  cbv zeta.
  destruct (save_conversation_reaches_bridge W req)
    as [[r [Hrun Hstatus]] | [name [company [h [r [_ [_ [Hrun Hok]]]]]]]];
    rewrite Hrun; cbn [fst snd].
  - split; [reflexivity |]. split; [intros l; cbn; lia |].
    split; [intros l [] |]. intros r' _ _ l [].
  - destruct (run_save_blocking_resources name company h) as [Hpool [Honce [Hkept Hclosed]]].
    split; [assumption |]. split; [assumption |]. split; [assumption |].
    intros r' [= <-] H200. apply Hclosed. now apply Hok.
Qed.

End SchedulerResources.

(** C8, as stated, fails: in a thread without an event loop the bridge makes
    a loop, installs it, runs the write on it, and the request is answered
    200 while that loop has not been closed. *)
Lemma save_conversation_leaves_loop_open :
  save_conversation Sample.calm Sample.conversation [] =
    (Returns (jsonify
                [("success", VBool true);
                 ("name", VStr "Alice");
                 ("company", VStr "Acme");
                 ("message_count", VInt 1);
                 ("record_id", VInt 7)]
                200),
     [StorageWrite (VStr "Alice") (VStr "Acme") Sample.transcript;
      LoopInstalled (NewLoop 0);
      LoopCreated (NewLoop 0)]) /\
  times_closed (NewLoop 0) (snd (save_conversation Sample.calm Sample.conversation [])) = 0.
Proof. split; reflexivity. Qed.

(** The part the statement above leaves open: when the second attempt
    raises too, the fallback loop is not closed. *)
Example fallback_loop_left_open_on_failure :
  let down := {| thread := IdleLoop;
                 get_supabase_client := Returns tt;
                 storage_save := fun _ _ _ _ =>
                   Raises (Exn OtherException "Server disconnected");
                 storage_query := fun _ _ _ => Returns (VList []);
                 chat_completion := fun _ => Returns None;
                 extract_user_info_from_chat := fun _ => Returns (VDict []) |} in
  save_conversation down Sample.conversation [] =
    (Returns (jsonify [("error", VStr "Server disconnected")] 500),
     [StorageWrite unknown unknown Sample.transcript;
      LoopCreated (NewLoop 0);
      StorageWrite unknown unknown Sample.transcript]).
Proof. reflexivity. Qed.

Lemma save_conversation_scheduler_resources_witness :
  times_closed (NewLoop 0) (snd (save_conversation Sample.flaky Sample.conversation [])) = 1.
Proof.
  refine (proj2 (proj2 (proj2
            (save_conversation_scheduler_resources Sample.flaky Sample.conversation)))
            _ eq_refl eq_refl (NewLoop 0) _ _).
  - cbn. tauto.
  - cbn. intros [H | [H | [H | [H | []]]]]; discriminate H.
Defined.

(** * Further properties *)

(** ** Room names and tokens *)

Module TokenFacts.
Import RoomNames Token.

Lemma while_name_in_rooms_first_free (rooms : list string) (uuids : list string) :
  forall name,
    while_name_in_rooms rooms name uuids =
      if name_in name rooms then first_free rooms uuids else Some name.
Proof.
  unfold first_free.
  induction uuids as [| uuid later IH]; intros name; simpl.
  - destruct (name_in name rooms); reflexivity.
  - destruct (name_in name rooms); [| reflexivity].
    rewrite IH. destruct (name_in (candidate uuid) rooms); reflexivity.
Qed.

Lemma generate_room_name_finds
    (uuids : list string) (R : Registry) (rooms : list string) :
  get_rooms R = Returns rooms ->
  generate_room_name uuids R = option_map (@Returns string) (first_free rooms uuids).
Proof.
  intros Hrooms. unfold generate_room_name.
  destruct uuids as [| uuid later]; [reflexivity |].
  rewrite Hrooms, while_name_in_rooms_first_free.
  unfold first_free. simpl.
  destruct (name_in (candidate uuid) rooms); simpl; [| reflexivity].
  destruct (find _ later); reflexivity.
Qed.

Lemma find_first {A} (f : A -> bool) (l : list A) (x : A) :
  find f l = Some x <->
  exists before after,
    l = (before ++ x :: after)%list /\ f x = true /\ Forall (fun y => f y = false) before.
Proof.
  induction l as [| y l IH]; simpl.
  - split; [discriminate |]. intros [[| ? ?] [after [H _]]]; discriminate.
  - destruct (f y) eqn:Hy.
    + split.
      * intros [= <-]. exists [], l. now repeat split.
      * intros [[| z before] [after [Heq [Hx Hall]]]]; injection Heq as -> ->.
        -- reflexivity.
        -- inversion Hall; congruence.
    + rewrite IH. split.
      * intros [before [after [-> [Hx Hall]]]].
        exists (y :: before), after. repeat split; [assumption | now constructor].
      * intros [[| z before] [after [Heq [Hx Hall]]]]; injection Heq as -> ->.
        -- congruence.
        -- exists before, after. repeat split; [assumption | now inversion Hall].
Qed.

(** X5. With the registry answering, the allocator returns a name exactly
    when it is the name made from some identifier drawn, is not listed, and
    every identifier drawn before gave a listed name: the allocator settles
    on the first free candidate in draw order. *)
Theorem generate_room_name_first_free
    (uuids : list string) (R : Registry) (rooms : list string) (name : string) :
  get_rooms R = Returns rooms ->
  generate_room_name uuids R = Some (Returns name) <->
  exists before uuid after,
    uuids = (before ++ uuid :: after)%list /\
    name = candidate uuid /\
    ~ In name rooms /\
    Forall (fun earlier => In (candidate earlier) rooms) before.
Proof.
  intros Hrooms. rewrite (generate_room_name_finds uuids R Hrooms). unfold first_free.
  split.
  - destruct (find _ uuids) as [uuid |] eqn:Hfind; [| discriminate].
    intros [= <-]. apply find_first in Hfind.
    destruct Hfind as [before [after [-> [Hfree Htaken]]]].
    exists before, uuid, after. repeat split.
    + apply RoomNamesFacts.name_in_false. now apply negb_true_iff.
    + eapply Forall_impl; [| exact Htaken]. cbn. intros u Hu.
      apply RoomNamesFacts.name_in_true. now apply negb_false_iff.
  - intros [before [uuid [after [-> [-> [Hfree Htaken]]]]]].
    assert (Hfind : find (fun u => negb (name_in (candidate u) rooms))
                      (before ++ uuid :: after)%list = Some uuid).
    { apply find_first. exists before, after. repeat split.
      - apply negb_true_iff. now apply RoomNamesFacts.name_in_false.
      - eapply Forall_impl; [| exact Htaken]. cbn. intros u Hu.
        apply negb_false_iff. now apply RoomNamesFacts.name_in_true. }
    now rewrite Hfind.
Qed.

Lemma generate_room_name_first_free_witness :
  exists before uuid after,
    Sample.drawn = (before ++ uuid :: after)%list /\
    "room-9d4e7a10" = candidate uuid /\
    ~ In "room-9d4e7a10" ["room-3f2b8c1a"; "room-lobby"] /\
    Forall (fun earlier => In (candidate earlier) ["room-3f2b8c1a"; "room-lobby"]) before.
Proof.
  exact (proj1 (generate_room_name_first_free Sample.drawn Sample.two_rooms
                  "room-9d4e7a10" eq_refl) eq_refl).
Defined.

Lemma substring_from_start_length (s : string) :
  forall m, String.length (substring 0 m s) = Nat.min m (String.length s).
Proof.
  induction s as [| c s IH]; intros [| m]; simpl; try reflexivity.
  now rewrite IH.
Qed.

Lemma candidate_shape (uuid : string) :
  String.length (candidate uuid) = 5 + Nat.min 8 (String.length uuid) /\
  prefix "room-" (candidate uuid) = true.
Proof.
  unfold candidate. split.
  - cbn [append String.length]. now rewrite substring_from_start_length.
  - cbn. destruct (substring 0 8 uuid); reflexivity.
Qed.

Lemma generate_room_name_is_candidate
    (uuids : list string) (R : Registry) (name : string) :
  generate_room_name uuids R = Some (Returns name) ->
  exists uuid, In uuid uuids /\ name = candidate uuid.
Proof.
  unfold generate_room_name.
  destruct uuids as [| uuid later]; [discriminate |].
  destruct (get_rooms R) as [rooms | e]; [| discriminate].
  pose proof (RoomNamesFacts.while_name_in_rooms_spec rooms later (candidate uuid)) as Hloop.
  destruct (while_name_in_rooms rooms (candidate uuid) later) as [fresh |]; [| discriminate].
  intros [= <-]. destruct Hloop as [_ [-> | [u [Hu ->]]]].
  - exists uuid. split; [now left | reflexivity].
  - exists u. split; [now right | reflexivity].
Qed.

(** X6. When every identifier drawn has at least eight characters, as the
    text of a UUID has, a name the allocator returns is ["room-"] followed
    by eight characters: thirteen characters in all. *)
Theorem generate_room_name_pattern
    (uuids : list string) (R : Registry) (name : string) :
  Forall (fun uuid => 8 <= String.length uuid) uuids ->
  generate_room_name uuids R = Some (Returns name) ->
  String.length name = 13 /\ prefix "room-" name = true.
Proof.
  intros Hlong Hname.
  destruct (generate_room_name_is_candidate uuids R Hname) as [uuid [Hin ->]].
  rewrite Forall_forall in Hlong. specialize (Hlong uuid Hin).
  destruct (candidate_shape uuid) as [Hlen Hprefix].
  split; [| assumption]. rewrite Hlen. lia.
Qed.

Lemma generate_room_name_pattern_witness :
  String.length "room-9d4e7a10" = 13 /\ prefix "room-" "room-9d4e7a10" = true.
Proof.
  refine (@generate_room_name_pattern Sample.drawn Sample.two_rooms _ _ eq_refl).
  repeat constructor; cbn; lia.
Defined.

Section GetToken.

Variable getenv : string -> option string.
Variable to_jwt : access_token -> outcome string.

(** X7. A request that names a room gets the token signed for that room,
    with the join grant and the participant as identity and name (["my
    name"] when none is given), whatever the registry holds or does and
    whatever identifiers are at hand: no room is looked up or allocated. *)
Theorem get_token_given_room
    (uuids : list string) (R : Registry) (req : request) (room : string) :
  args_get "room" (args req) = Some room ->
  room <> "" ->
  get_token getenv to_jwt uuids R req =
    Some (to_jwt (token_for getenv (participant_of req) room)).
Proof.
  intros Hroom Hne. unfold get_token. rewrite Hroom.
  apply String.eqb_neq in Hne. rewrite Hne. reflexivity.
Qed.

(** X8. A request that names no room, or an empty one, gets a room allocated
    first: with the registry listing [rooms], the token that is signed grants
    the first free name, which is not one of [rooms]; the view is still
    looping only while every identifier drawn gives a listed name. *)
Theorem get_token_allocates_room
    (uuids : list string) (R : Registry) (req : request) (rooms : list string) :
  args_get "room" (args req) = None \/ args_get "room" (args req) = Some "" ->
  get_rooms R = Returns rooms ->
  match first_free rooms uuids with
  | Some room =>
      ~ In room rooms /\
      get_token getenv to_jwt uuids R req =
        Some (to_jwt (token_for getenv (participant_of req) room))
  | None =>
      get_token getenv to_jwt uuids R req = None /\
      forall uuid, In uuid uuids -> In (candidate uuid) rooms
  end.
Proof.
  intros Hroom Hrooms.
  assert (Hview : get_token getenv to_jwt uuids R req =
                  match first_free rooms uuids with
                  | Some room => Some (to_jwt (token_for getenv (participant_of req) room))
                  | None => None
                  end).
  { unfold get_token.
    rewrite (generate_room_name_finds uuids R Hrooms).
    destruct Hroom as [-> | ->]; cbn [String.eqb];
      destruct (first_free rooms uuids); reflexivity. }
  rewrite Hview. unfold first_free.
  destruct (find (fun uuid => negb (name_in (candidate uuid) rooms)) uuids)
    as [uuid |] eqn:Hfind; cbn [option_map].
  - apply find_some in Hfind. destruct Hfind as [_ Hfree].
    apply negb_true_iff in Hfree.
    split; [now apply RoomNamesFacts.name_in_false | reflexivity].
  - split; [reflexivity |]. intros uuid Hin.
    pose proof (find_none _ _ Hfind uuid Hin) as Htaken. cbn in Htaken.
    apply negb_false_iff in Htaken. now apply RoomNamesFacts.name_in_true.
Qed.

(** X9. When no room is named and the registry call fails, the view fails
    with the registry's error and no token is signed, whatever the signer
    would have done. *)
Theorem get_token_registry_error
    (uuid : string) (later : list string) (R : Registry) (req : request) (e : exn) :
  args_get "room" (args req) = None \/ args_get "room" (args req) = Some "" ->
  get_rooms R = Raises e ->
  get_token getenv to_jwt (uuid :: later) R req = Some (Raises e).
Proof.
  intros Hroom Hfail. unfold get_token, generate_room_name. rewrite Hfail.
  destruct Hroom as [-> | ->]; reflexivity.
Qed.

End GetToken.

Lemma get_token_given_room_witness :
  get_token Demo.getenv Demo.to_jwt [] Sample.unreachable
    (Sample.get [("name", "Alice"); ("room", "demo")]) =
    Some (Returns "jwt:Alice@demo").
Proof.
  refine (get_token_given_room Demo.getenv Demo.to_jwt [] Sample.unreachable
            (Sample.get [("name", "Alice"); ("room", "demo")]) eq_refl _).
  discriminate.
Defined.

Lemma get_token_allocates_room_witness :
  ~ In "room-9d4e7a10" ["room-3f2b8c1a"; "room-lobby"] /\
  get_token Demo.getenv Demo.to_jwt Sample.drawn Sample.two_rooms
    (Sample.get [("name", "Alice")]) =
    Some (Returns "jwt:Alice@room-9d4e7a10").
Proof.
  exact (get_token_allocates_room Demo.getenv Demo.to_jwt Sample.drawn Sample.two_rooms
           (Sample.get [("name", "Alice")]) (or_introl eq_refl) eq_refl).
Defined.

Lemma get_token_registry_error_witness :
  get_token Demo.getenv Demo.to_jwt Sample.drawn Sample.unreachable
    (Sample.get [("room", "")]) =
    Some (Raises (Exn OtherException "Cannot connect to host")).
Proof.
  exact (get_token_registry_error Demo.getenv Demo.to_jwt
           "3f2b8c1a-07d4-4e6b-9a51-2c8f0e1d7b36"
           ["9d4e7a10-5b2c-4f83-8e67-1a0c3d5f9b24"] Sample.unreachable
           (Sample.get [("room", "")]) (or_intror eq_refl) eq_refl).
Defined.

End TokenFacts.

(** ** [POST /save_chat]: every request *)

Section SaveChatAnswers.

Variable B : Builtins.
Variable W : World.

(** The ways a request can go: answered with an error and no effect, or
    taken as far as the one storage write, whose outcome decides the
    answer. *)
Lemma save_chat_cases (req : request) :
  (exists reason code,
      (code = 400%Z \/ code = 500%Z) /\
      save_chat B W req [] = (Returns (jsonify [("error", reason)] code), [])) \/
  (exists d history count r,
      get_json req = Returns (VDict d) /\
      lookup "chat_history" d = Some history /\
      py_len history = Returns count /\
      let name := dict_get d "name" (VStr "Unknown") in
      let company_name := dict_get d "company_name" (VStr "Unknown Company") in
      save_chat B W req [] = (Returns r, [StorageWrite name company_name history]) /\
      match storage_save W 0 name company_name history with
      | Returns (VDict result) =>
          if has_key "error" result then
            exists reason, r = jsonify [("error", reason)] 500
          else
            r = jsonify
                  [("success", VBool true);
                   ("message",
                    VStr ("Chat history saved successfully for " ++ format B name));
                   ("record_id", dict_get result "id" VNone);
                   ("message_count", VInt (Z.of_nat count))]
                  200
      | _ => exists reason, r = jsonify [("error", reason)] 500
      end).
Proof.
  unfold save_chat, save_chat_history. unfold_py.
  destruct (get_json req) as [data | e]; [| left; do 2 eexists; split; [now right | reflexivity]].
  destruct (truthy data) eqn:Hdata; cbn [negb];
    [| left; do 2 eexists; split; [now left | reflexivity]].
  destruct data as [| b | z | f | s | items | d];
    try (left; do 2 eexists; split; [now right | reflexivity]).
  cbn [py_get].
  destruct (lookup "chat_history" d) as [h |] eqn:Hlookup;
    [| assert (Hnone : dict_get d "chat_history" (VList []) = VList [])
         by (unfold dict_get; now rewrite Hlookup);
       left; rewrite Hnone; cbn;
       do 2 eexists; split; [now left | reflexivity]].
  assert (Hget : dict_get d "chat_history" (VList []) = h)
    by (unfold dict_get; now rewrite Hlookup).
  rewrite Hget.
  destruct (truthy h) eqn:Hh; cbn [negb];
    [| left; do 2 eexists; split; [now left | reflexivity]].
  destruct (py_len h) as [count | e] eqn:Hlen;
    [| left; do 2 eexists; split; [now right | reflexivity]].
  destruct (get_supabase_client W);
    [| left; do 2 eexists; split; [now right | reflexivity]].
  right. exists d, h, count. cbn [writes filter List.length].
  destruct (storage_save W 0 (dict_get d "name" (VStr "Unknown"))
              (dict_get d "company_name" (VStr "Unknown Company")) h)
    as [[| b | z | f | s | items | result] | e]; cbn;
    try (eexists; repeat split; try eassumption; now eexists).
  - destruct (is_substring "error" s); cbn;
      (eexists; repeat split; try eassumption; now eexists).
  - destruct (existsb (equals_str "error") items); cbn;
      (eexists; repeat split; try eassumption; now eexists).
  - unfold has_key. destruct (lookup "error" result); cbn.
    + eexists; repeat split; try eassumption; now eexists.
    + eexists; repeat split; try eassumption; reflexivity.
Qed.

(** X10. Every request to [/save_chat] is answered, with status 200, 400 or
    500; an answer other than 200 is an object with the single entry
    [error]; the request has no effect, or its one effect is a storage write
    carrying the payload's [name] (["Unknown"] when missing), [company_name]
    (["Unknown Company"] when missing) and [chat_history]; a request
    answered 400 has no effect. *)
Theorem save_chat_answers (req : request) :
  exists r t,
    save_chat B W req [] = (Returns r, t) /\
    (status r = 200%Z \/ status r = 400%Z \/ status r = 500%Z) /\
    (status r <> 200%Z -> exists reason, body r = VDict [("error", reason)]) /\
    (status r = 400%Z -> t = []) /\
    (t = [] \/
     exists d history,
       get_json req = Returns (VDict d) /\
       lookup "chat_history" d = Some history /\
       t = [StorageWrite (dict_get d "name" (VStr "Unknown"))
              (dict_get d "company_name" (VStr "Unknown Company")) history]).
Proof.
  destruct (save_chat_cases req)
    as [[reason [code [Hcode Hrun]]] | [d [h [count [r [Hbody [Hh [Hlen [Hrun Hstore]]]]]]]]].
  - do 2 eexists. split; [exact Hrun |]. cbn [status body jsonify].
    split; [destruct Hcode; auto |]. split; [intros _; now eexists |].
    split; [reflexivity | now left].
  - do 2 eexists. split; [exact Hrun |].
    assert (Hr : (status r = 200%Z \/ status r = 500%Z) /\
                 (status r <> 200%Z -> exists reason, body r = VDict [("error", reason)])).
    { destruct (storage_save W 0 _ _ h) as [[| b | z | f | s | items | result] | e];
        try (destruct Hstore as [reason ->]; split; [now right | intros _; now eexists]).
      destruct (has_key "error" result).
      - destruct Hstore as [reason ->]. split; [now right | intros _; now eexists].
      - subst r. split; [now left | intros Hne; now destruct Hne]. }
    destruct Hr as [Hstatus Herror].
    split; [destruct Hstatus; auto |]. split; [assumption |].
    split; [| right; now exists d, h].
    intros H400. destruct Hstatus as [H | H]; rewrite H in H400; discriminate.
Qed.

(** X11. [/save_chat] answers 200 only when the write was made and the store
    returned an object without an [error] entry; the answer then carries that
    object's [id] as [record_id], and as [message_count] the number of items
    of the submitted chat history when that is a list or an object. *)
Theorem save_chat_success_means_stored (req : request) (r : response) (t : trace) :
  save_chat B W req [] = (Returns r, t) ->
  status r = 200%Z ->
  exists d history count result,
    get_json req = Returns (VDict d) /\
    lookup "chat_history" d = Some history /\
    match history with
    | VList items => count = List.length items
    | VDict entries => count = List.length entries
    | _ => True
    end /\
    let name := dict_get d "name" (VStr "Unknown") in
    let company_name := dict_get d "company_name" (VStr "Unknown Company") in
    t = [StorageWrite name company_name history] /\
    storage_save W 0 name company_name history = Returns (VDict result) /\
    has_key "error" result = false /\
    r = jsonify
          [("success", VBool true);
           ("message", VStr ("Chat history saved successfully for " ++ format B name));
           ("record_id", dict_get result "id" VNone);
           ("message_count", VInt (Z.of_nat count))]
          200.
Proof.
  intros Hrun H200.
  destruct (save_chat_cases req)
    as [[reason [code [Hcode Hrun']]] | [d [h [count [r' [Hbody [Hh [Hlen [Hrun' Hstore]]]]]]]]];
    rewrite Hrun' in Hrun; injection Hrun as <- <-.
  - cbn in H200. destruct Hcode; subst code; discriminate.
  - exists d, h, count. cbv zeta.
    destruct (storage_save W 0 _ _ h) as [[| b | z | f | s | items | result] | e] eqn:Hsave;
      try (destruct Hstore as [reason ->]; discriminate).
    destruct (has_key "error" result) eqn:Herror.
    + destruct Hstore as [reason ->]. discriminate.
    + exists result. repeat split; try assumption.
      destruct h; try exact I; cbn in Hlen; now injection Hlen as <-.
Qed.

End SaveChatAnswers.

Lemma save_chat_success_means_stored_witness :
  exists d history count result,
    get_json (Sample.post (VDict [("chat_history", Sample.transcript)])) = Returns (VDict d) /\
    lookup "chat_history" d = Some history /\
    match history with
    | VList items => count = List.length items
    | VDict entries => count = List.length entries
    | _ => True
    end /\
    storage_save Sample.calm 0 (dict_get d "name" (VStr "Unknown"))
      (dict_get d "company_name" (VStr "Unknown Company")) history = Returns (VDict result) /\
    has_key "error" result = false.
Proof.
  destruct (save_chat_success_means_stored Sample.runtime Sample.calm
              (Sample.post (VDict [("chat_history", Sample.transcript)]))
              eq_refl eq_refl)
    as [d [history [count [result [H1 [H2 [H3 [_ [H4 [H5 _]]]]]]]]]].
  exists d, history, count, result. now repeat split.
Defined.

(** ** [GET /get_chats]: every request *)

Section GetChatsAnswers.

Variable B : Builtins.
Variable W : World.

(** X12. Every request to [/get_chats] is answered, with status 200 or 500
    and never 400; a 500 answer is an object with the single entry [error].
    The request has no effect, or its one effect is a storage query with the
    [name] and [company_name] parameters as given (absent when not given) and
    the limit, which is 50 when no [limit] is given; nothing is ever written.
    An answer 200 carries what the store returned for that query and its
    length as [count]. *)
Theorem get_chats_answers (req : request) :
  let name := args_get "name" (args req) in
  let company_name := args_get "company_name" (args req) in
  let asks (limit : Z) :=
    match args_get "limit" (args req) with
    | None => limit = 50%Z
    | Some text => py_int B text = Returns limit
    end in
  exists r t,
    get_chats B W req [] = (Returns r, t) /\
    (status r = 200%Z \/ status r = 500%Z) /\
    (status r = 500%Z -> exists reason, body r = VDict [("error", reason)]) /\
    (t = [] \/ exists limit, asks limit /\ t = [StorageQuery name company_name limit]) /\
    (status r = 200%Z ->
     exists limit chats count,
       asks limit /\
       t = [StorageQuery name company_name limit] /\
       storage_query W name company_name limit = Returns chats /\
       py_len chats = Returns count /\
       r = jsonify [("success", VBool true); ("chats", chats);
                    ("count", VInt (Z.of_nat count))] 200).
Proof.
  intros name company_name asks.
  unfold get_chats, get_chat_history. unfold_py. fold name company_name.
  assert (Hlimit : exists o,
             match args_get "limit" (args req) with
             | Some text => py_int B text
             | None => Returns 50%Z
             end = o /\
             match o with Returns limit => asks limit | Raises _ => True end).
  { eexists. split; [reflexivity |]. subst asks. cbv beta.
    destruct (args_get "limit" (args req)) as [text |]; [| reflexivity].
    destruct (py_int B text); [reflexivity | exact I]. }
  destruct Hlimit as [o [-> Hasks]].
  destruct o as [limit | e];
    [| do 2 eexists; split; [reflexivity |]; cbn;
       repeat split; try (now right); try (now left); try discriminate;
       intros _; now eexists].
  destruct (get_supabase_client W);
    [| do 2 eexists; split; [reflexivity |]; cbn;
       repeat split; try (now right); try (now left); try discriminate;
       intros _; now eexists].
  destruct (storage_query W name company_name limit) as [chats | e] eqn:Hquery;
    [destruct (py_len chats) as [count | e] eqn:Hlen |];
    do 2 eexists; (split; [reflexivity |]); cbn.
  - split; [now left |]. split; [discriminate |].
    split; [right; now exists limit |].
    intros _. exists limit, chats, count. now repeat split.
  - split; [now right |]. split; [intros _; now eexists |].
    split; [right; now exists limit | discriminate].
  - split; [now right |]. split; [intros _; now eexists |].
    split; [right; now exists limit | discriminate].
Qed.

End GetChatsAnswers.

(** ** [POST /extract_client_info]: every request *)

Section ExtractClientInfoAnswers.

Variable B : Builtins.
Variable W : World.

(** X21. Rendering composes: the text of two chat histories joined is the
    text of the first, continued with the second; when the first fails, the
    second is not read. *)
Theorem render_conversation_app (first later : list value) :
  forall text,
    render_conversation B (first ++ later)%list text =
      match render_conversation B first text with
      | Returns so_far => render_conversation B later so_far
      | Raises e => Raises e
      end.
Proof.
  induction first as [| msg first IH]; intros text; cbn [app render_conversation].
  - reflexivity.
  - destruct (py_get msg "speaker" (VStr "Unknown")); [| reflexivity].
    destruct (py_get msg "message" (VStr "")); [| reflexivity].
    apply IH.
Qed.

(** The loop gets through exactly when every message is a JSON object, and
    then the text it started from is kept in front. *)
Lemma render_conversation_returns (messages : list value) :
  forall text,
    match render_conversation B messages text with
    | Returns rendered => forallb is_object messages = true /\ prefix text rendered = true
    | Raises e => forallb is_object messages = false /\ exn_class_of e = AttributeError
    end.
Proof.
  assert (Hprefix_refl : forall s, prefix s s = true).
  { induction s as [| c s IH]; cbn; [reflexivity |].
    destruct (ascii_dec c c); [assumption | congruence]. }
  assert (Hprefix_app : forall s u, prefix s (s ++ u) = true).
  { induction s as [| c s IH]; intros u; cbn; [now destruct u |].
    destruct (ascii_dec c c); [apply IH | congruence]. }
  assert (Hprefix_trans : forall a b c, prefix a b = true -> prefix b c = true ->
                                        prefix a c = true).
  { induction a as [| x a IH]; intros b c; [now destruct c |].
    destruct b as [| y b]; [discriminate |]. destruct c as [| z c]; [discriminate |].
    cbn. destruct (ascii_dec x y); [| discriminate].
    destruct (ascii_dec y z); [| discriminate]. subst.
    destruct (ascii_dec z z); [apply IH | congruence]. }
  induction messages as [| msg messages IH]; intros text; cbn [render_conversation forallb].
  - split; [reflexivity | apply Hprefix_refl].
  - destruct msg as [| b | z | f | s | items | d]; cbn; try (split; reflexivity).
    specialize (IH (text ++ format B (dict_get d "speaker" (VStr "Unknown")) ++ ": " ++
                    format B (dict_get d "message" (VStr "")) ++ newline)).
    destruct (render_conversation B messages _) as [rendered | e]; [| exact IH].
    destruct IH as [Hall Hkept]. split; [assumption |].
    eapply Hprefix_trans; [apply Hprefix_app | exact Hkept].
Qed.

Lemma append_assoc (a b c : string) : ((a ++ b) ++ c = a ++ (b ++ c))%string.
Proof. induction a as [| x a IH]; cbn; [reflexivity | now rewrite IH]. Qed.

(** X22. For a chat history whose messages are all JSON objects, the
    conversation text is one line per message, in order, each
    [speaker: message] and a newline, with ["Unknown"] for a missing speaker
    and the empty text for a missing message; the loop does not fail. *)
Theorem render_conversation_lines (messages : list value) :
  forallb is_object messages = true ->
  forall text,
    render_conversation B messages text = Returns (text ++ message_lines B messages).
Proof.
  induction messages as [| msg messages IH]; intros Hall text;
    cbn [render_conversation message_lines fold_right].
  - f_equal. induction text as [| c text IHt]; cbn; [reflexivity | now rewrite <- IHt].
  - cbn [forallb] in Hall. apply andb_true_iff in Hall. destruct Hall as [Hmsg Hall].
    destruct msg as [| b | z | f | s | items | d]; try discriminate.
    cbn [py_get]. rewrite (IH Hall). f_equal.
    fold (message_lines B messages). cbn [message_line].
    rewrite !append_assoc. reflexivity.
Qed.

(** The ways a request can go. *)
Lemma extract_client_info_cases (req : request) :
  (exists reason code,
      (code = 400%Z \/ code = 500%Z) /\
      extract_client_info B W req [] = (Returns (jsonify [("error", reason)] code), [])) \/
  (exists d history messages conversation_text,
      get_json req = Returns (VDict d) /\
      lookup "chat_history" d = Some history /\
      truthy history = true /\
      py_iter history = Returns messages /\
      render_conversation B messages "" = Returns conversation_text /\
      let prompt := extraction_prompt conversation_text in
      extract_client_info B W req [] =
        (Returns
           match chat_completion W prompt with
           | Returns (Some content) =>
               match json_loads B (str_strip B content) with
               | Returns (VDict answer) =>
                   jsonify [("success", VBool true);
                            ("name", dict_get answer "name" unknown);
                            ("company", dict_get answer "company" unknown)] 200
               | _ =>
                   jsonify [("success", VBool true);
                            ("name", unknown); ("company", unknown)] 200
               end
           | Returns None =>
               jsonify [("error",
                         VStr ("Failed to extract client info: " ++
                               "'NoneType' object has no attribute 'strip'"))] 500
           | Raises e =>
               jsonify [("error",
                         VStr ("Failed to extract client info: " ++ exn_message e))] 500
           end,
         [CompletionRequest prompt])).
Proof.
  unfold extract_client_info, extract_inline, complete. unfold_py.
  destruct (get_json req) as [data | e]; [| left; do 2 eexists; split; [now right | reflexivity]].
  destruct (truthy data) eqn:Hdata; cbn [negb];
    [| left; do 2 eexists; split; [now left | reflexivity]].
  destruct data as [| b | z | f | s | items | d];
    try (left; do 2 eexists; split; [now right | reflexivity]).
  cbn [py_get].
  destruct (lookup "chat_history" d) as [h |] eqn:Hlookup;
    [| assert (Hnone : dict_get d "chat_history" VNone = VNone)
         by (unfold dict_get; now rewrite Hlookup);
       left; rewrite Hnone; cbn; do 2 eexists; split; [now left | reflexivity]].
  assert (Hget : forall default, dict_get d "chat_history" default = h)
    by (intros; unfold dict_get; now rewrite Hlookup).
  rewrite !Hget.
  destruct (truthy h) eqn:Hh; cbn [negb];
    [| left; do 2 eexists; split; [now left | reflexivity]].
  destruct (py_iter h) as [messages | e] eqn:Hiter;
    [| left; do 2 eexists; split; [now right | reflexivity]].
  destruct (render_conversation B messages "") as [text | e] eqn:Hrender;
    [| left; do 2 eexists; split; [now right | reflexivity]].
  right. exists d, h, messages, text. cbv zeta.
  repeat (split; [first [reflexivity | assumption] |]).
  destruct (chat_completion W (extraction_prompt text)) as [[content |] | e];
    try reflexivity.
  rewrite parse_client_info_reads.
  destruct (json_loads B (str_strip B content)) as [[| b | z | f | s | items | answer] | e];
    reflexivity.
Qed.

(** X13. Every request to [/extract_client_info] is answered, with status
    200, 400 or 500; an answer other than 200 is an object with the single
    entry [error]. The request has no effect, or its one effect is a
    completion request; the store is never touched; a request answered 400
    has asked for no completion. *)
Theorem extract_client_info_answers (req : request) :
  exists r t,
    extract_client_info B W req [] = (Returns r, t) /\
    (status r = 200%Z \/ status r = 400%Z \/ status r = 500%Z) /\
    (status r <> 200%Z -> exists reason, body r = VDict [("error", reason)]) /\
    (t = [] \/ exists prompt, t = [CompletionRequest prompt]) /\
    (status r = 400%Z -> t = []).
Proof.
  destruct (extract_client_info_cases req)
    as [[reason [code [Hcode Hrun]]] |
        [d [h [messages [text [_ [_ [_ [_ [_ Hrun]]]]]]]]]];
    cbv zeta in *; rewrite Hrun; do 2 eexists; (split; [reflexivity |]).
  - cbn. split; [destruct Hcode; auto |]. split; [intros _; now eexists |].
    split; [now left | reflexivity].
  - destruct (chat_completion W (extraction_prompt text)) as [[content |] | e].
    + destruct (json_loads B (str_strip B content)) as [[| b | z | f | s | items | answer] | e];
        cbn; (split; [now left |]); (split; [intros H; now destruct H |]);
        (split; [right; now eexists | discriminate]).
    + cbn. split; [auto |]. split; [intros _; now eexists |].
      split; [right; now eexists | discriminate].
    + cbn. split; [auto |]. split; [intros _; now eexists |].
      split; [right; now eexists | discriminate].
Qed.

(** X14. A request to [/extract_client_info] without chat history (no JSON
    payload, or an object whose [chat_history] is missing or empty) is
    answered 400 with ["No chat history provided"], and no completion is
    requested. *)
Theorem extract_client_info_no_history (req : request) :
  no_chat_history req = true ->
  extract_client_info B W req [] =
    (Returns (jsonify [("error", VStr "No chat history provided")] 400), []).
Proof.
  unfold no_chat_history, extract_client_info. unfold_py.
  destruct (get_json req) as [[| b | z | f | s | items | d] | e]; try discriminate.
  - reflexivity.
  - destruct d as [| entry d']; [reflexivity |].
    cbn [truthy negb py_get]. unfold dict_get.
    destruct (lookup "chat_history" (entry :: d')) as [history |].
    + intros Hempty. apply negb_true_iff in Hempty. rewrite Hempty. reflexivity.
    + reflexivity.
Qed.

(** X15. When the chat history is a list in which some message is not a JSON
    object, [/extract_client_info] answers 500 and no completion is
    requested: one malformed message fails the whole request before the
    completion service is asked. *)
Theorem extract_client_info_malformed_message
    (req : request) (d : dict) (messages : list value) :
  get_json req = Returns (VDict d) ->
  lookup "chat_history" d = Some (VList messages) ->
  forallb is_object messages = false ->
  exists reason,
    extract_client_info B W req [] = (Returns (jsonify [("error", reason)] 500), []).
Proof.
  intros Hbody Hhistory Hsome.
  destruct (extract_client_info_cases req)
    as [[reason [code [Hcode Hrun]]] |
        [d' [h [messages' [text [Hbody' [Hh [_ [Hiter [Hrender _]]]]]]]]]].
  - destruct Hcode as [-> | ->]; [| now exists reason].
    exfalso. revert Hrun.
    unfold extract_client_info, extract_inline. unfold_py. rewrite Hbody.
    assert (Hd : truthy (VDict d) = true) by (destruct d; [discriminate | reflexivity]).
    rewrite Hd. cbn [negb py_get]. unfold dict_get. rewrite Hhistory.
    destruct messages as [| m ms]; [discriminate |]. cbn [truthy negb py_iter].
    destruct (render_conversation B (m :: ms) ""); [| discriminate].
    unfold complete. destruct (chat_completion W _) as [[content |] | e]; cbn;
      try discriminate.
    rewrite parse_client_info_reads. discriminate.
  - exfalso. rewrite Hbody in Hbody'. injection Hbody' as <-.
    rewrite Hhistory in Hh. injection Hh as <-. cbn in Hiter. injection Hiter as <-.
    pose proof (render_conversation_returns messages "") as Hall.
    rewrite Hrender in Hall. destruct Hall as [Hall _]. congruence.
Qed.

(** X16. When the completion service fails, or answers without text, the
    request is answered 500 after the one completion request, with the
    failure's message after ["Failed to extract client info: "]; a name or a
    company is answered only for a completion that carries text. *)
Theorem extract_client_info_completion_failure
    (req : request) (d : dict) (messages : list value) (conversation_text : string) :
  get_json req = Returns (VDict d) ->
  lookup "chat_history" d = Some (VList messages) ->
  messages <> [] ->
  render_conversation B messages "" = Returns conversation_text ->
  let prompt := extraction_prompt conversation_text in
  match chat_completion W prompt with
  | Raises e =>
      extract_client_info B W req [] =
        (Returns (jsonify [("error",
                            VStr ("Failed to extract client info: " ++ exn_message e))] 500),
         [CompletionRequest prompt])
  | Returns None =>
      exists reason,
        extract_client_info B W req [] =
          (Returns (jsonify [("error", VStr ("Failed to extract client info: " ++ reason))]
                      500),
           [CompletionRequest prompt])
  | Returns (Some _) =>
      exists r, extract_client_info B W req [] = (Returns r, [CompletionRequest prompt]) /\
                status r = 200%Z
  end.
Proof.
  intros Hbody Hhistory Hne Hrender prompt.
  destruct (extract_client_info_cases req)
    as [[reason [code [Hcode Hrun]]] |
        [d' [h [messages' [text [Hbody' [Hh [_ [Hiter [Hrender' Hrun]]]]]]]]]].
  - exfalso. revert Hrun.
    unfold extract_client_info, extract_inline. unfold_py. rewrite Hbody.
    assert (Hd : truthy (VDict d) = true) by (destruct d; [discriminate | reflexivity]).
    rewrite Hd. cbn [negb py_get]. unfold dict_get. rewrite Hhistory.
    destruct messages as [| m ms]; [congruence |]. cbn [truthy negb py_iter].
    rewrite Hrender.
    unfold complete. destruct (chat_completion W _) as [[content |] | e]; cbn;
      try discriminate.
    rewrite parse_client_info_reads. discriminate.
  - rewrite Hbody in Hbody'. injection Hbody' as <-.
    rewrite Hhistory in Hh. injection Hh as <-. cbn in Hiter. injection Hiter as <-.
    rewrite Hrender in Hrender'. injection Hrender' as <-.
    cbv zeta in Hrun. fold prompt in Hrun. rewrite Hrun.
    destruct (chat_completion W prompt) as [[content |] | e].
    + eexists. split; [reflexivity |].
      destruct (json_loads B (str_strip B content)) as [[| b | z | f | s | items | answer] | e];
        reflexivity.
    + now eexists.
    + reflexivity.
Qed.

End ExtractClientInfoAnswers.

Lemma render_conversation_lines_witness :
  render_conversation Sample.runtime
    [Sample.message "User" "Hello"; VDict [("message", VStr "Hi there")]; VDict []] "" =
    Returns ("User: Hello" ++ newline ++ "Unknown: Hi there" ++ newline ++
             "Unknown: " ++ newline).
Proof.
  exact (render_conversation_lines Sample.runtime
           [Sample.message "User" "Hello"; VDict [("message", VStr "Hi there")]; VDict []]
           eq_refl "").
Defined.

Lemma extract_client_info_no_history_witness :
  extract_client_info Sample.runtime Sample.calm
    (Sample.post (VDict [("chat_history", VList [])])) [] =
    (Returns (jsonify [("error", VStr "No chat history provided")] 400), []).
Proof.
  exact (extract_client_info_no_history Sample.runtime Sample.calm
           (Sample.post (VDict [("chat_history", VList [])])) eq_refl).
Defined.

Lemma extract_client_info_malformed_message_witness :
  exists reason,
    extract_client_info Sample.runtime Sample.calm
      (Sample.post (VDict [("chat_history",
                            VList [Sample.message "User" "Hello"; VStr "Hi there"])])) [] =
      (Returns (jsonify [("error", reason)] 500), []).
Proof.
  exact (extract_client_info_malformed_message Sample.runtime Sample.calm
           (Sample.post (VDict [("chat_history",
                                 VList [Sample.message "User" "Hello"; VStr "Hi there"])]))
           eq_refl eq_refl eq_refl).
Defined.

Lemma extract_client_info_completion_failure_witness :
  fst (extract_client_info Sample.runtime Sample.silent Sample.conversation []) =
    Returns (jsonify [("error", VStr "Failed to extract client info: Connection error.")] 500).
Proof.
  refine (f_equal fst
            (extract_client_info_completion_failure Sample.runtime Sample.silent
               Sample.conversation eq_refl eq_refl _ eq_refl)).
  discriminate.
Defined.

(** ** [POST /save-conversation]: every request *)

Section BridgeResult.

Variable W : World.
Variables name company history : value.

(** X17. What the bridge hands back: the result of the first attempt when it
    returns, in every thread context; when it raises, the outcome of the
    second attempt, the first error being dropped; except that with a loop
    running in the thread the second attempt is refused and the caller gets
    the scheduler's [RuntimeError] in place of the store's error. *)
Theorem run_save_blocking_result :
  fst (run_save_blocking W name company history []) =
    match storage_save W 0 name company history with
    | Returns result => Returns result
    | Raises _ =>
        match thread W with
        | RunningLoop =>
            Raises (Exn RuntimeError
                      "Cannot run the event loop while another loop is running")
        | _ => storage_save W 1 name company history
        end
    end.
Proof.
  rewrite run_save_blocking_branches.
  destruct (thread W);
    destruct (storage_save W 0 name company history);
    try destruct (storage_save W 1 name company history); reflexivity.
Qed.

(** X18. How the bridge reads the thread: it hands the write to a worker
    pool exactly when the loop it finds is running, and it makes and
    installs a loop of its own exactly when it finds none or a closed one;
    a loop found idle is used as it is and nothing is installed. *)
Theorem run_save_blocking_context :
  let t := snd (run_save_blocking W name company history []) in
  pools_created t = match thread W with RunningLoop | BusyLoop => 1 | _ => 0 end /\
  installed t = match thread W with
                | NoLoop | ClosedLoop => Some (NewLoop 0)
                | _ => None
                end.
Proof.
  cbv zeta. rewrite run_save_blocking_branches.
  destruct (thread W);
    destruct (storage_save W 0 name company history);
    try destruct (storage_save W 1 name company history); split; reflexivity.
Qed.

End BridgeResult.

Section SaveConversationAnswers.

Variable W : World.

(** The ways a request can go: answered with an error before anything is
    done, or taken to the bridge with what the extractor found. *)
Lemma save_conversation_cases (req : request) :
  (exists reason code,
      (code = 400%Z \/ code = 500%Z) /\
      save_conversation W req [] = (Returns (jsonify [("error", reason)] code), [])) \/
  (exists d history count user_info,
      get_json req = Returns (VDict d) /\
      lookup "chat_history" d = Some history /\
      py_len history = Returns count /\
      extract_user_info_from_chat W history = Returns (VDict user_info) /\
      let name := dict_get user_info "name" unknown in
      let company := dict_get user_info "company" unknown in
      let run := run_save_blocking W name company history [] in
      let saved (record_id : value) :=
        jsonify [("success", VBool true);
                 ("name", name);
                 ("company", company);
                 ("message_count", VInt (Z.of_nat count));
                 ("record_id", record_id)] 200 in
      save_conversation W req [] =
        (Returns
           match fst run with
           | Returns result =>
               if truthy result then
                 match py_get result "id" VNone with
                 | Returns record_id => saved record_id
                 | Raises e => jsonify [("error", VStr (exn_message e))] 500
                 end
               else saved VNone
           | Raises e => jsonify [("error", VStr (exn_message e))] 500
           end,
         snd run)).
Proof.
  unfold save_conversation, extract_with_module. unfold_py.
  destruct (get_json req) as [data | e];
    [| left; do 2 eexists; split; [now right | reflexivity]].
  destruct (truthy data) eqn:Hdata; cbn [negb];
    [| left; do 2 eexists; split; [now left | reflexivity]].
  destruct (py_contains "chat_history" data) as [[|] | e] eqn:Hin; cbn [negb];
    [| left; do 2 eexists; split; [now left | reflexivity]
     | left; do 2 eexists; split; [now right | reflexivity]].
  destruct (py_index data "chat_history") as [h | e] eqn:Hindex;
    [| left; do 2 eexists; split; [now right | reflexivity]].
  destruct data as [| b | z | f | s | items | d]; try discriminate.
  cbn [py_index] in Hindex.
  destruct (lookup "chat_history" d) as [h' |] eqn:Hlookup; [| discriminate].
  injection Hindex as ->.
  destruct (truthy h) eqn:Hh; cbn [negb];
    [| left; do 2 eexists; split; [now left | reflexivity]].
  destruct (py_len h) as [count | e] eqn:Hlen;
    [| left; do 2 eexists; split; [now right | reflexivity]].
  destruct (extract_user_info_from_chat W h) as [user_info | e] eqn:Hinfo;
    [| left; do 2 eexists; split; [now right | reflexivity]].
  destruct user_info as [| b | z | f | s | items | user_info];
    try (left; do 2 eexists; split; [now right | reflexivity]).
  cbn [py_get fst snd].
  destruct (get_supabase_client W);
    [| left; do 2 eexists; split; [now right | reflexivity]].
  right. exists d, h, count, user_info. cbv zeta. unfold unknown.
  repeat (split; [first [reflexivity | assumption] |]).
  destruct (run_save_blocking W _ _ h []) as [[result | e] t]; cbn [fst snd];
    [| reflexivity].
  destruct (truthy result); [| reflexivity].
  destruct (py_get result "id" VNone); reflexivity.
Qed.

(** X19. Every request to [/save-conversation] is answered, with status 200,
    400 or 500; an answer other than 200 is an object with the single entry
    [error]; a request answered 400 has had no effect; and every storage
    write that a request makes carries the submitted chat history with the
    [name] and [company] of the object the extractor returned, each
    ["Unknown"] when the object lacks it. *)
Theorem save_conversation_answers (req : request) :
  exists r t,
    save_conversation W req [] = (Returns r, t) /\
    (status r = 200%Z \/ status r = 400%Z \/ status r = 500%Z) /\
    (status r <> 200%Z -> exists reason, body r = VDict [("error", reason)]) /\
    (status r = 400%Z -> t = []) /\
    (forall name company history,
        In (StorageWrite name company history) t ->
        submitted_history req = Some history /\
        exists user_info,
          extract_user_info_from_chat W history = Returns (VDict user_info) /\
          name = dict_get user_info "name" unknown /\
          company = dict_get user_info "company" unknown).
Proof.
  destruct (save_conversation_cases req)
    as [[reason [code [Hcode Hrun]]] |
        [d [h [count [user_info [Hbody [Hh [Hlen [Hinfo Hrun]]]]]]]]];
    cbv zeta in Hrun; rewrite Hrun; do 2 eexists; (split; [reflexivity |]).
  - cbn. split; [destruct Hcode; auto |]. split; [intros _; now eexists |].
    split; [reflexivity | intros ? ? ? []].
  - assert (Hr : forall r : response,
               r = match fst (run_save_blocking W (dict_get user_info "name" unknown)
                                (dict_get user_info "company" unknown) h []) with
                   | Returns result =>
                       if truthy result then
                         match py_get result "id" VNone with
                         | Returns record_id =>
                             jsonify [("success", VBool true);
                                      ("name", dict_get user_info "name" unknown);
                                      ("company", dict_get user_info "company" unknown);
                                      ("message_count", VInt (Z.of_nat count));
                                      ("record_id", record_id)] 200
                         | Raises e => jsonify [("error", VStr (exn_message e))] 500
                         end
                       else
                         jsonify [("success", VBool true);
                                  ("name", dict_get user_info "name" unknown);
                                  ("company", dict_get user_info "company" unknown);
                                  ("message_count", VInt (Z.of_nat count));
                                  ("record_id", VNone)] 200
                   | Raises e => jsonify [("error", VStr (exn_message e))] 500
                   end ->
               (status r = 200%Z \/ status r = 500%Z) /\
               (status r <> 200%Z -> exists reason, body r = VDict [("error", reason)])).
    { intros r ->.
      destruct (fst (run_save_blocking W _ _ h [])) as [result | e].
      - destruct (truthy result).
        + destruct (py_get result "id" VNone); cbn;
            (split; [auto | first [intros H; now destruct H | intros _; now eexists]]).
        + cbn. split; [auto | intros H; now destruct H].
      - cbn. split; [auto | intros _; now eexists]. }
    destruct (Hr _ eq_refl) as [Hstatus Herror].
    split; [destruct Hstatus; auto |]. split; [exact Herror |].
    split; [intros H400; destruct Hstatus as [H | H]; rewrite H in H400; discriminate |].
    intros name company history Hin.
    apply run_save_blocking_writes_arguments in Hin; [| reflexivity].
    injection Hin as -> -> ->.
    split; [unfold submitted_history; now rewrite Hbody |].
    now exists user_info.
Qed.

(** X20. When the extractor fails on a request that submitted a chat
    history, [/save-conversation] answers 500 with the extractor's message
    and does nothing else: no loop is looked up or made and nothing is
    written. *)
Theorem save_conversation_extractor_failure
    (req : request) (d : dict) (messages : list value) (e : exn) :
  get_json req = Returns (VDict d) ->
  lookup "chat_history" d = Some (VList messages) ->
  messages <> [] ->
  extract_user_info_from_chat W (VList messages) = Raises e ->
  save_conversation W req [] =
    (Returns (jsonify [("error", VStr (exn_message e))] 500), []).
Proof.
  intros Hbody Hhistory Hne Hfail.
  unfold save_conversation, extract_with_module. unfold_py. rewrite Hbody.
  assert (Hd : truthy (VDict d) = true) by (destruct d; [discriminate | reflexivity]).
  rewrite Hd. cbn [negb py_contains py_index]. unfold has_key. rewrite Hhistory.
  destruct messages as [| m ms]; [congruence |].
  cbn [negb truthy py_len]. rewrite Hfail. reflexivity.
Qed.

End SaveConversationAnswers.

Lemma save_conversation_extractor_failure_witness :
  save_conversation Sample.silent Sample.conversation [] =
    (Returns (jsonify [("error", VStr "Connection error.")] 500), []).
Proof.
  refine (save_conversation_extractor_failure Sample.silent Sample.conversation
            eq_refl eq_refl _ eq_refl).
  discriminate.
Defined.

(** ** The two extraction paths *)

Section ExtractionPaths.

Variable B : Builtins.
Variable W : World.


End ExtractionPaths.


(** The paths part in two more ways: on a field that is not text, which
    the inline code hands on, and on a completion without text, on which the
    inline code fails. *)
Example extraction_paths_differ_on_null :
  let B := {| json_loads := fun _ =>
                Returns (VDict [("name", VNone); ("company", VStr "Acme")]);
              py_int := Sample.int; py_str := Sample.str; str_strip := Sample.strip |} in
  let W := with_spec_extractor B Sample.calm (Returns (Some "any")) in
  fst (extract_inline B W Sample.transcript []) = Returns (VNone, VStr "Acme") /\
  fst (extract_with_module W Sample.transcript []) = Returns (unknown, unknown).
Proof. split; reflexivity. Qed.

Example extraction_paths_differ_without_text :
  let W := with_spec_extractor Sample.runtime Sample.calm (Returns None) in
  fst (extract_inline Sample.runtime W Sample.transcript []) =
    Raises (Exn AttributeError "'NoneType' object has no attribute 'strip'") /\
  fst (extract_with_module W Sample.transcript []) = Returns (unknown, unknown).
Proof. split; reflexivity. Qed.

